(** * knutKnutRealEstate: cleaning pipeline, outlier pass and price predictor

    A shallow embedding of the Python sources

      - [scripts/dataClean.py]   (pandas cleaning of the listing table),
      - [scripts/clean_houses.py] and [scripts/dom_outliers.py]
        (line-by-line JSON-Lines passes),
      - [kkd_dashboard.py]       (feature encoding and linear prediction),

    together with the properties the specification states about them. *)

From Stdlib Require Import ZArith QArith Qround Reals Lra Lia List Bool Ascii String.
From stdpp Require Import base option list gmap strings.

Import ListNotations.
Local Open Scope string_scope.
Local Open Scope list_scope.

(* ===================================================================== *)
(** * Python strings *)
(* ===================================================================== *)

(** The sources only look at ASCII text (field names, tokens such as
    ["no"], month names, hexadecimal agent identifiers); [str.lower] and
    [str.strip] are embedded on the ASCII range and leave every other
    byte alone. *)
Module PyStr.

Definition lower_ascii (c : ascii) : ascii :=
  let n := nat_of_ascii c in
  if ((65 <=? n) && (n <=? 90))%nat then ascii_of_nat (n + 32) else c.

(** [s.lower()] *)
Fixpoint lower (s : string) : string :=
  match s with
  | EmptyString => EmptyString
  | String c s' => String (lower_ascii c) (lower s')
  end.

(** Characters removed by [s.strip()]: space, tab, line feed, vertical
    tab, form feed, carriage return and the four separators 28..31. *)
Definition is_space (c : ascii) : bool :=
  let n := nat_of_ascii c in
  ((n =? 32) || ((9 <=? n) && (n <=? 13)) || ((28 <=? n) && (n <=? 31)))%nat.

Fixpoint lstrip (s : string) : string :=
  match s with
  | EmptyString => EmptyString
  | String c s' => if is_space c then lstrip s' else s
  end.

Fixpoint rstrip (s : string) : string :=
  match s with
  | EmptyString => EmptyString
  | String c s' =>
      match rstrip s' with
      | EmptyString => if is_space c then EmptyString else String c EmptyString
      | r => String c r
      end
  end.

(** [s.strip()] *)
Definition strip (s : string) : string := rstrip (lstrip s).

(** [len(s)] *)
Definition len (s : string) : nat := String.length s.

End PyStr.

(* ===================================================================== *)
(** * Exceptions *)
(* ===================================================================== *)

(** A Python call either returns a value or raises; the exceptions that
    the modelled code can raise are enumerated. *)
Inductive exn : Type :=
| AttributeError
| IntCastingNaNError
| KeyError
| IndexError
| ValueError
| TypeError.

Inductive result (A : Type) : Type :=
| Ok (a : A)
| Raise (e : exn).
Arguments Ok {A} a.
Arguments Raise {A} e.

#[global] Instance result_ret : MRet result := fun A a => Ok a.

#[global] Instance result_bind : MBind result := fun A B k r =>
  match r with
  | Ok a => k a
  | Raise e => Raise e
  end.

Definition is_ok {A : Type} (r : result A) : bool :=
  match r with Ok _ => true | Raise _ => false end.

(* ===================================================================== *)
(** * A pandas table *)
(* ===================================================================== *)

(** Cell values: a float (modelled by a rational), a string, [None] or
    the float NaN (pandas' missing marker). *)
Inductive value : Type :=
| VNaN
| VNone
| VNum (q : Q)
| VStr (s : string).

(** Column dtypes: [object] (strings, [None], mixed content) and the
    numeric dtypes ([float64], [int64]), which the code never tells
    apart. *)
Inductive dtype : Type := Object | Numeric.

Record Series : Type := mkSeries { dt : dtype; values : list value }.

(** A table is its list of named columns, in order.  The operations
    below follow pandas 2 on tables whose labels are pairwise distinct
    and whose columns have one length. *)
Definition DataFrame : Type := list (string * Series).

Module Pandas.

Definition columns (df : DataFrame) : list string := map fst df.

(** [col in df.columns] *)
Definition has_col (col : string) (df : DataFrame) : bool :=
  existsb (String.eqb col) (columns df).

(** [df[col]], for a label known to be present. *)
Fixpoint get_col (col : string) (df : DataFrame) : option Series :=
  match df with
  | [] => None
  | (n, s) :: df' => if String.eqb n col then Some s else get_col col df'
  end.

(** [df[col] = f(df[col])] *)
Definition assign (col : string) (f : Series -> Series) (df : DataFrame)
  : DataFrame :=
  map (fun c => if String.eqb (fst c) col then (fst c, f (snd c)) else c) df.

Definition nrows (df : DataFrame) : nat :=
  match df with
  | [] => 0
  | c :: _ => length (values (snd c))
  end.

(** Boolean indexing of one column. *)
Fixpoint select (mask : list bool) (vs : list value) : list value :=
  match mask, vs with
  | b :: mask', v :: vs' => if b then v :: select mask' vs' else select mask' vs'
  | _, _ => []
  end.

(** [df[mask]] *)
Definition take_rows (mask : list bool) (df : DataFrame) : DataFrame :=
  map (fun c => (fst c, mkSeries (dt (snd c)) (select mask (values (snd c))))) df.

(** [m1 & m2] *)
Fixpoint mask_and (m1 m2 : list bool) : list bool :=
  match m1, m2 with
  | a :: m1', b :: m2' => (a && b) :: mask_and m1' m2'
  | _, _ => []
  end.

(** [~m] *)
Definition mask_not (m : list bool) : list bool := map negb m.

Definition isna (v : value) : bool :=
  match v with
  | VNaN | VNone => true
  | _ => false
  end.

(** Row [i] of the table, as the list of its cells. *)
Definition row_at (df : DataFrame) (i : nat) : list value :=
  map (fun c => nth i (values (snd c)) VNaN) df.

(** Equality of cells as [drop_duplicates] sees it: missing values are
    equal to each other, numbers are compared numerically. *)
Definition value_eqb (a b : value) : bool :=
  match a, b with
  | VNaN, VNaN => true
  | VNone, VNone => true
  | VNum x, VNum y => Qeq_bool x y
  | VStr s, VStr t => String.eqb s t
  | _, _ => false
  end.

Fixpoint row_eqb (r1 r2 : list value) : bool :=
  match r1, r2 with
  | [], [] => true
  | a :: r1', b :: r2' => value_eqb a b && row_eqb r1' r2'
  | _, _ => false
  end.

(** [df.duplicated()]: a row is a duplicate when an earlier row equals it. *)
Definition duplicated (df : DataFrame) : list bool :=
  map (fun i => existsb (fun j => row_eqb (row_at df j) (row_at df i)) (seq 0 i))
      (seq 0 (nrows df)).

(** [df.drop_duplicates()] *)
Definition drop_duplicates (df : DataFrame) : DataFrame :=
  take_rows (mask_not (duplicated df)) df.

(** [df.dropna(subset=cols)]: keep the rows with no missing cell in the
    columns of [cols]. *)
Definition notna_mask (df : DataFrame) (col : string) : list bool :=
  match get_col col df with
  | Some s => map (fun v => negb (isna v)) (values s)
  | None => repeat true (nrows df)
  end.

Definition dropna (subset : list string) (df : DataFrame) : DataFrame :=
  take_rows
    (fold_right (fun col m => mask_and (notna_mask df col) m)
                (repeat true (nrows df)) subset)
    df.

(** [df.select_dtypes(include=["object"]).columns] *)
Definition object_columns (df : DataFrame) : list string :=
  map fst (List.filter (fun c => match dt (snd c) with Object => true | Numeric => false end) df).

(** Truncation toward zero, the float-to-int conversion of [astype(int)]. *)
Definition trunc (q : Q) : Z := Z.quot (Qnum q) (Zpos (Qden q)).

(** [s.astype(int)] on a column of floats: refuses a missing value and
    truncates the others.  The cast loop only meets numeric columns; on
    text, which it never meets, the cast is modelled as failing. *)
Definition astype_int (s : Series) : result Series :=
  if existsb isna (values s) then Raise IntCastingNaNError
  else if existsb (fun v => match v with VStr _ => true | _ => false end) (values s)
       then Raise ValueError
       else Ok (mkSeries Numeric
                  (map (fun v => match v with
                                 | VNum q => VNum (inject_Z (trunc q))
                                 | other => other
                                 end) (values s))).

(** [s.str]: the accessor exists on object columns only. *)
Definition str_accessor (s : Series) : result (list value) :=
  match dt s with
  | Object => Ok (values s)
  | Numeric => Raise AttributeError
  end.

(** One cell of [s.str.lower()]: missing stays missing. *)
Definition str_lower (v : value) : value :=
  match v with
  | VStr s => VStr (PyStr.lower s)
  | _ => VNaN
  end.

(** One cell of [series == "token"]. *)
Definition eq_str (tok : string) (v : value) : bool :=
  match v with
  | VStr s => String.eqb s tok
  | _ => false
  end.

(** One cell of [series >= q], [series > q], [series <= q] on a numeric
    column: a comparison with a missing value is [False]. *)
Definition ge_num (q : Q) (v : value) : bool :=
  match v with VNum x => Qle_bool q x | _ => false end.
Definition gt_num (q : Q) (v : value) : bool :=
  match v with VNum x => negb (Qle_bool x q) | _ => false end.
Definition le_num (q : Q) (v : value) : bool :=
  match v with VNum x => Qle_bool x q | _ => false end.

(** One cell of [a >= b] for two columns. *)
Definition ge_val (a b : value) : bool :=
  match a, b with
  | VNum x, VNum y => Qle_bool y x
  | _, _ => false
  end.

End Pandas.

(* ===================================================================== *)
(** * scripts/dataClean.py *)
(* ===================================================================== *)

Module DataClean.
Import Pandas.

Definition NUMERIC_COLUMNS : list string :=
  [ "price"; "size"; "bathrooms"; "kitchens"; "storage_rating"; "condition_rating";
    "days_on_marked"; "sun_factor"; "lot_w"; "external_storage_m2"; "year"; "remodeled" ].

Definition REQUIRED_COLUMNS : list string := [ "price"; "size"; "year" ].

(** The columns of the final cast loop. *)
Definition INT_COLUMNS : list string :=
  [ "bathrooms"; "kitchens"; "storage_rating"; "condition_rating"; "year";
    "remodeled"; "lot_w"; "external_storage_m2" ].

(** The keys of the [df.replace] dictionary. *)
Definition PLACEHOLDERS : list string := [ ""; "unknown"; "None"; "nan" ].

Definition is_placeholder (s : string) : bool := existsb (String.eqb s) PLACEHOLDERS.

Section WithEnvironment.

(** [CURRENT_YEAR = datetime.now().year] *)
Variable CURRENT_YEAR : Q.
(** [str(x)] of a float cell, used by [astype(str)]. *)
Variable str_of_num : Q -> string.
(** The parse of one string by [pandas.to_numeric]; [None] when the
    string is not a number (coerced to NaN). *)
Variable num_of_str : string -> option Q.

(** One cell of [s.astype(str)]. *)
Definition astype_str (v : value) : string :=
  match v with
  | VNaN => "nan"
  | VNone => "None"
  | VNum q => str_of_num q
  | VStr s => s
  end.

(** [df.columns = [col.lower() for col in df.columns]] *)
Definition lowercase_columns (df : DataFrame) : DataFrame :=
  map (fun c => (PyStr.lower (fst c), snd c)) df.

(** [df.rename(columns={old: new}, inplace=True)] *)
Definition rename (old new : string) (df : DataFrame) : DataFrame :=
  map (fun c => if String.eqb (fst c) old then (new, snd c) else c) df.

Definition fix_typo (df : DataFrame) : DataFrame :=
  if has_col "sold_in_moth" df && negb (has_col "sold_in_month" df)
  then rename "sold_in_moth" "sold_in_month" df
  else df.

(** [df[col].astype(str).str.strip()] *)
Definition strip_series (s : Series) : Series :=
  mkSeries Object (map (fun v => VStr (PyStr.strip (astype_str v))) (values s)).

Definition strip_strings (df : DataFrame) : DataFrame :=
  fold_left (fun d col => assign col strip_series d) (object_columns df) df.

(** One cell of [df.replace({"": nan, "unknown": nan, "None": nan, "nan": nan})]. *)
Definition replace_value (v : value) : value :=
  match v with
  | VStr s => if is_placeholder s then VNaN else v
  | other => other
  end.

Definition holds_text (v : value) : bool :=
  match v with
  | VStr _ | VNone => true
  | _ => false
  end.

(** [replace] re-infers the dtype of an object column it has changed
    (pandas 2): a column left with floats and NaN only becomes numeric. *)
Definition replace_series (s : Series) : Series :=
  match dt s with
  | Numeric => s
  | Object =>
      let vs := map replace_value (values s) in
      match vs with
      | [] => mkSeries Object vs
      | _ :: _ => if existsb holds_text vs then mkSeries Object vs
                  else mkSeries Numeric vs
      end
  end.

Definition replace_placeholders (df : DataFrame) : DataFrame :=
  map (fun c => (fst c, replace_series (snd c))) df.

(** One cell of [pandas.to_numeric(s, errors="coerce")]. *)
Definition to_numeric_value (v : value) : value :=
  match v with
  | VNum q => VNum q
  | VStr s => match num_of_str s with
              | Some q => VNum q
              | None => VNaN
              end
  | VNaN | VNone => VNaN
  end.

Definition to_numeric (s : Series) : Series :=
  mkSeries Numeric (map to_numeric_value (values s)).

Definition coerce_numeric (df : DataFrame) : DataFrame :=
  fold_left (fun d col => if has_col col d then assign col to_numeric d else d)
            NUMERIC_COLUMNS df.

(** The Normalizer and the Coercer: everything before the first row
    is dropped. *)
Definition normalize_coerce (df : DataFrame) : DataFrame :=
  coerce_numeric (replace_placeholders (strip_strings (fix_typo (lowercase_columns df)))).

(** [df.dropna(subset=present_required)] *)
Definition drop_missing_required (df : DataFrame) : DataFrame :=
  let present_required := List.filter (fun c => has_col c df) REQUIRED_COLUMNS in
  match present_required with
  | [] => df
  | _ :: _ => dropna present_required df
  end.

(** [(df["sold"].str.lower() == "no") & (df["sold_in_month"].astype(str).str.len() > 0)] *)
Definition inconsistent_mask (sold : list value) (month : Series) : list bool :=
  mask_and (map (fun v => eq_str "no" (str_lower v)) sold)
           (map (fun v => (0 <? PyStr.len (astype_str v))%nat) (values month)).

Definition drop_sold_no_with_month (df : DataFrame) : result DataFrame :=
  match get_col "sold" df, get_col "sold_in_month" df with
  | Some sold, Some month =>
      sold_str ← str_accessor sold;
      Ok (take_rows (mask_not (inconsistent_mask sold_str month)) df)
  | _, _ => Ok df
  end.

(** [(df["sold"].str.lower() == "yes") & (df["sold_in_month"].astype(str).str.len() == 0)] *)
Definition missing_month_mask (sold : list value) (month : Series) : list bool :=
  mask_and (map (fun v => eq_str "yes" (str_lower v)) sold)
           (map (fun v => (PyStr.len (astype_str v) =? 0)%nat) (values month)).

Definition drop_sold_yes_without_month (df : DataFrame) : result DataFrame :=
  match get_col "sold" df, get_col "sold_in_month" df with
  | Some sold, Some month =>
      sold_str ← str_accessor sold;
      Ok (take_rows (mask_not (missing_month_mask sold_str month)) df)
  | _, _ => Ok df
  end.

(** [if col in df.columns: df = df[p(df[col])]] *)
Definition filter_col (col : string) (p : value -> bool) (df : DataFrame) : DataFrame :=
  match get_col col df with
  | Some s => take_rows (map p (values s)) df
  | None => df
  end.

Definition filter_price : DataFrame -> DataFrame := filter_col "price" (ge_num 0).
Definition filter_size : DataFrame -> DataFrame := filter_col "size" (gt_num 0).
Definition year_ok (v : value) : bool := ge_num 1800 v && le_num CURRENT_YEAR v.
Definition filter_year : DataFrame -> DataFrame := filter_col "year" year_ok.

(** [(df["remodeled"] >= df["year"]) & (df["remodeled"] <= CURRENT_YEAR)] *)
Fixpoint remodeled_mask (remodeled year : list value) : list bool :=
  match remodeled, year with
  | r :: remodeled', y :: year' =>
      (ge_val r y && le_num CURRENT_YEAR r) :: remodeled_mask remodeled' year'
  | _, _ => []
  end.

Definition filter_remodeled (df : DataFrame) : DataFrame :=
  match get_col "remodeled" df, get_col "year" df with
  | Some r, Some y => take_rows (remodeled_mask (values r) (values y)) df
  | _, _ => df
  end.

Definition sun_ok (v : value) : bool := ge_num 0 v && le_num 1 v.
Definition filter_sun_factor : DataFrame -> DataFrame := filter_col "sun_factor" sun_ok.
Definition filter_days_on_marked : DataFrame -> DataFrame :=
  filter_col "days_on_marked" (ge_num 0).
Definition filter_bathrooms : DataFrame -> DataFrame := filter_col "bathrooms" (ge_num 0).
Definition filter_kitchens : DataFrame -> DataFrame := filter_col "kitchens" (ge_num 0).

(** The eight range filters, in the order of the source. *)
Definition range_filters (df : DataFrame) : DataFrame :=
  filter_kitchens (filter_bathrooms (filter_days_on_marked (filter_sun_factor
    (filter_remodeled (filter_year (filter_size (filter_price df))))))).

(** [if col in df.columns: df[col] = df[col].astype(int)] *)
Definition cast_column (col : string) (df : DataFrame) : result DataFrame :=
  match get_col col df with
  | Some s => s' ← astype_int s; Ok (assign col (fun _ => s') df)
  | None => Ok df
  end.

Definition cast_integers (df : DataFrame) : result DataFrame :=
  fold_left (fun acc col => d ← acc; cast_column col d) INT_COLUMNS (Ok df).

(** The Business-Rule Validator: everything after the coercion. *)
Definition validate (df : DataFrame) : result DataFrame :=
  let df := drop_missing_required df in
  let df := drop_duplicates df in
  df ← drop_sold_no_with_month df;
  df ← drop_sold_yes_without_month df;
  cast_integers (range_filters df).

Definition clean_data (df : DataFrame) : result DataFrame :=
  validate (normalize_coerce df).

End WithEnvironment.

End DataClean.

(* ===================================================================== *)
(** * JSON Lines *)
(* ===================================================================== *)

(** What [json.loads] returns: [None], a bool, a number, a string, a list
    or a dict (kept as an association list, in insertion order). *)
#[local] Unset Elimination Schemes.
Inductive json : Type :=
| JNull
| JBool (b : bool)
| JNum (q : Q)
| JStr (s : string)
| JArr (items : list json)
| JObj (fields : list (string * json)).
#[local] Set Elimination Schemes.

Module Json.

(** [key in d] and [d.get(key)] on a dict. *)
Fixpoint dict_get (key : string) (fields : list (string * json)) : option json :=
  match fields with
  | [] => None
  | (k, v) :: fields' => if String.eqb k key then Some v else dict_get key fields'
  end.

(** [d[key] = v]: overwrite in place, or append a new key. *)
Fixpoint dict_set (key : string) (v : json) (fields : list (string * json))
  : list (string * json) :=
  match fields with
  | [] => [(key, v)]
  | (k, w) :: fields' =>
      if String.eqb k key then (k, v) :: fields' else (k, w) :: dict_set key v fields'
  end.

(** [rec.get(key)]: [None] for an absent key; only a dict has [get]. *)
Definition get (rec : json) (key : string) : result json :=
  match rec with
  | JObj fields => Ok (default JNull (dict_get key fields))
  | _ => Raise AttributeError
  end.

(** [x == ""] *)
Definition is_empty_str (x : json) : bool :=
  match x with
  | JStr s => String.eqb s ""
  | _ => false
  end.

Definition is_none (x : json) : bool :=
  match x with
  | JNull => true
  | _ => false
  end.

End Json.

(** A text file is the list of its lines, as iteration over the file
    yields them; every chunk [text + "\n"] that the scripts write is one
    line. *)
Definition lines : Type := list string.

Definition newline : string := String (ascii_of_nat 10) EmptyString.

(* ===================================================================== *)
(** * scripts/clean_houses.py *)
(* ===================================================================== *)

Module CleanHouses.
Import Json.

(** The counters of [clean_file] and the lines written so far. *)
Record state : Type := mkState {
  total : nat;
  removed_sold_no : nat;
  removed_missing_year : nat;
  rooms_fixed : nat;
  outf : lines
}.

Definition initial : state := mkState 0 0 0 0 [].

Section WithJson.

(** [json.loads]: [None] when it raises on the text. *)
Variable json_loads : string -> option json.
(** [json.dumps(rec, ensure_ascii=False)] *)
Variable json_dumps : json -> string.

(** [isinstance(sold_val, str) and sold_val.strip().lower() == 'no'] *)
Definition sold_is_no (sold_val : json) : bool :=
  match sold_val with
  | JStr s => String.eqb (PyStr.lower (PyStr.strip s)) "no"
  | _ => false
  end.

(** ['year' not in rec or rec.get('year') in (None, "")] *)
Definition year_missing (fields : list (string * json)) : bool :=
  match dict_get "year" fields with
  | None => true
  | Some y => is_none y || is_empty_str y
  end.

(** One iteration of the loop over the input lines. *)
Definition step (st : state) (raw : string) : result state :=
  let raw := PyStr.strip raw in
  if String.eqb raw "" then Ok st
  else
    let st := mkState (S (total st)) (removed_sold_no st) (removed_missing_year st)
                      (rooms_fixed st) (outf st) in
    match json_loads raw with
    | None => Ok st
    | Some rec =>
        sold_val ← get rec "sold";
        if sold_is_no sold_val
        then Ok (mkState (total st) (S (removed_sold_no st)) (removed_missing_year st)
                         (rooms_fixed st) (outf st))
        else
          match rec with
          | JObj fields =>
              if year_missing fields
              then Ok (mkState (total st) (removed_sold_no st)
                               (S (removed_missing_year st)) (rooms_fixed st) (outf st))
              else
                let '(fields, fixed) :=
                  if is_empty_str (default JNull (dict_get "rooms" fields))
                  then (dict_set "rooms" (JStr "0 rooms") fields, S (rooms_fixed st))
                  else (fields, rooms_fixed st) in
                Ok (mkState (total st) (removed_sold_no st) (removed_missing_year st)
                            fixed
                            (outf st ++ [json_dumps (JObj fields) +:+ newline]))
          | _ => Raise AttributeError
          end
    end.

Fixpoint loop (st : state) (inf : lines) : result state :=
  match inf with
  | [] => Ok st
  | raw :: inf' => st' ← step st raw; loop st' inf'
  end.

(** [clean_file]: the final counters and the content of the output
    file, or the exception that ended the loop. *)
Definition clean_file (inf : lines) : result state := loop initial inf.

(** The ['kept'] entry of the returned dictionary. *)
Definition kept (st : state) : nat :=
  total st - removed_sold_no st - removed_missing_year st.

End WithJson.

End CleanHouses.

(* ===================================================================== *)
(** * scripts/dom_outliers.py *)
(* ===================================================================== *)

Module DomOutliers.
Import Json.

(** The two files [main] touches: the source and the temporary file
    created next to it ([None]: the file does not exist). *)
Record FileSystem : Type := mkFS {
  source : option lines;
  temp : option lines
}.

(** How [main] ends. *)
Inductive outcome : Type :=
| Finished
| Exit (code : nat)
| Uncaught (e : exn).

Record counters : Type := mkCounters {
  total : nat;
  removed : nat;
  dst : lines
}.

Section WithJson.

(** [json.loads]: [None] when it raises [JSONDecodeError]. *)
Variable json_loads : string -> option json.
(** [json.dumps(obj, ensure_ascii=False)] *)
Variable json_dumps : json -> string.
(** [float(s)] on a string: [None] when it raises [ValueError] or when
    the result is not a finite number (never equal to 100). *)
Variable float_of_str : string -> option Q.

(** [float(value)]; numbers are the finite floats. *)
Definition py_float (value : json) : result Q :=
  match value with
  | JNum q => Ok q
  | JBool b => Ok (if b then 1 else 0)%Q
  | JStr s => match float_of_str s with
              | Some q => Ok q
              | None => Raise ValueError
              end
  | JNull | JArr _ | JObj _ => Raise TypeError
  end.

Definition is_days_equal_100 (value : json) : bool :=
  match py_float value with
  | Ok q => Qeq_bool q 100
  | Raise TypeError | Raise ValueError => false
  | Raise _ => false
  end.

(** One iteration of the loop over the source lines. *)
Definition step (st : counters) (line : string) : result counters :=
  let line := PyStr.strip line in
  if String.eqb line "" then Ok st
  else
    let st := mkCounters (S (total st)) (removed st) (dst st) in
    match json_loads line with
    | None => Ok (mkCounters (total st) (removed st) (dst st ++ [line +:+ newline]))
    | Some obj =>
        days ← get obj "days_on_marked";
        if is_days_equal_100 days
        then Ok (mkCounters (total st) (S (removed st)) (dst st))
        else Ok (mkCounters (total st) (removed st)
                            (dst st ++ [json_dumps obj +:+ newline]))
    end.

(** The loop stops at the first uncaught exception and keeps what was
    written until then. *)
Fixpoint loop (st : counters) (src : lines) : counters * option exn :=
  match src with
  | [] => (st, None)
  | line :: src' =>
      match step st line with
      | Ok st' => loop st' src'
      | Raise e => (st, Some e)
      end
  end.

Definition main (fs : FileSystem) : FileSystem * outcome :=
  match source fs with
  | None => (fs, Exit 1)
  | Some src =>
      match loop (mkCounters 0 0 []) src with
      | (st, Some e) => (mkFS (source fs) (Some (dst st)), Uncaught e)
      | (st, None) =>
          if (0 <? removed st)%nat
          then (mkFS (Some (dst st)) None, Finished)   (* os.replace *)
          else (mkFS (source fs) None, Finished)       (* os.remove *)
      end
  end.

End WithJson.

End DomOutliers.

(* ===================================================================== *)
(** * kkd_dashboard.py *)
(* ===================================================================== *)

(** Floats are idealised as real numbers: [np.expm1(x)] is [exp x - 1]. *)
Module Dashboard.

Definition MONTHS : list string :=
  [ "jan"; "feb"; "march"; "april"; "may"; "june";
    "july"; "august"; "september"; "october"; "november"; "december" ].

(** [AGENTS]: the pairs of an agent identifier and a name. *)
Definition AGENTS : list (string * string) :=
  [ ("6c5ec2f26798484fb1031a7a31c08d73", "Alice Vadasy");
    ("3a547da007e04cbdb8ed7e36a5920ab5", "Rhonda Bowers");
    ("795dc3219c4548de8a06babe17e5312c", "Pedro Sasser");
    ("8e6475f796cd425cafc497e1a5c9474f", "Porfirio Wueste");
    ("32b554b9e556415b9c1a5f429cb86ea4", "Donna Mcclintock");
    ("19a0b5650c4d43619cbaeeac9cc7a20a", "Frank Schmidt");
    ("efef30ab07cd407a88aa48c424d5171a", "John Rios");
    ("b07e66765f334ca9970aaee99cffc5a8", "Michael Hanners");
    ("fff5808fd1564d4fafd32ae748479a2c", "John Jimenez");
    ("c4a0f434295d4e4e972b2512823d6c4a", "Frank Scheetz");
    ("d2bd04c4a79d409d8d692ca8eea96c7a", "Donald Campbell");
    ("f80b78e84ee54bdd9aff519346ba2f19", "Kirsten Webb");
    ("4ecaa44743f145529c682799a4ff7100", "Michael Rowland");
    ("5f0b7975f5bc42cd8a46f8c2cc0a7bc8", "Charlotte Nodine");
    ("9656ed14d6ea47fd84503af7e1be3e4e", "Ann Perez");
    ("48589954489f46239de57d1846b9c79b", "Shirley Delrio");
    ("cb7d8976bd0a4c98826b3344ac18cdea", "Lucy Moffatt");
    ("ebb2ffc4234b40ebb7bf9bdd9c92ad98", "Gonzalo Ramos");
    ("63f3d4cadbf944dca0e586711d33a70f", "Cheryl Dunlap");
    ("defb7dd2db4845baa9e94f9a38000913", "Mary Chavez");
    ("ef141ba69bf94741aa575623c7abc6d8", "Pat Daniels");
    ("fc8bd0d643b94de58c36d221f27b6f66", "Johnnie Stanley");
    ("36e5c7e1c1a5478287fc3c4ad91bc72c", "Misty Wallace");
    ("90ac6055bfd045adaf501fad965c6ea3", "Gregory Dixon") ].

Definition AGENT_IDS : list string := map fst AGENTS.

(** [sorted(l)] on strings: insertion in the order of the code points. *)
Fixpoint insert_sorted (x : string) (l : list string) : list string :=
  match l with
  | [] => [x]
  | y :: l' => if String.leb x y then x :: l else y :: insert_sorted x l'
  end.

Definition sorted (l : list string) : list string := fold_right insert_sorted [] l.

(** [enumerate(l)] *)
Definition enumerate (l : list string) : list (nat * string) := imap pair l.

(** [{k: i for i, k in enumerate(l)}] *)
Definition index_dict (l : list string) : gmap string nat :=
  fold_left (fun d ik => <[snd ik := fst ik]> d) (enumerate l) ∅.

Definition price_category_maps : gmap string (gmap string nat) :=
  <["agent_id" := index_dict (sorted AGENT_IDS)]>
    (<["sold_in_month" := index_dict (sorted MONTHS)]> ∅).

(** [d[key]] *)
Definition getitem {V : Type} (d : gmap string V) (key : string) : result V :=
  match d !! key with
  | Some v => Ok v
  | None => Raise KeyError
  end.

(** [len(d)] *)
Definition len {V : Type} (d : gmap string V) : nat := size d.

(** [l[i] = x] on a Python list. *)
Definition setitem (l : list Z) (i : nat) (x : Z) : result (list Z) :=
  if (i <? length l)%nat then Ok (<[i := x]> l) else Raise IndexError.

(** Elementwise arithmetic of two one-dimensional arrays, with numpy's
    broadcasting of an array of length one. *)
Definition broadcast (op : R -> R -> R) (a b : list R) : result (list R) :=
  if (length a =? length b)%nat then Ok (zip_with op a b)
  else match a, b with
       | _, [y] => Ok (map (fun x => op x y) a)
       | [x], _ => Ok (map (op x) b)
       | _, _ => Raise ValueError
       end.

(** [np.dot] of two vectors of the same length. *)
Fixpoint dot (xs theta : list R) : R :=
  match xs, theta with
  | x :: xs', t :: theta' => (x * t + dot xs' theta')%R
  | _, _ => 0%R
  end.

Section WithModel.

(** The unpickled artifacts: [scalers["price"]["mean"]],
    [scalers["price"]["std"]], [price_model] and [price_model_bias]. *)
Variable X_mean_price : list R.
Variable X_std_price : list R.
Variable price_model : list R.
Variable price_model_bias : R.

Definition create_feature_vector (size external_storage lot_w : R)
    (sold_month agent_id : string) : result (list R) :=
  let numeric := [size; external_storage; lot_w] in
  centred ← broadcast Rminus numeric X_mean_price;
  numeric_scaled ← broadcast Rdiv centred X_std_price;
  (* month one-hot *)
  months ← getitem price_category_maps "sold_in_month";
  let month_oh := replicate (len months) 0%Z in
  month_idx ← getitem months sold_month;
  month_oh ← setitem month_oh month_idx 1%Z;
  (* agent one-hot *)
  agents ← getitem price_category_maps "agent_id";
  let agent_oh := replicate (len agents) 0%Z in
  agent_idx ← getitem agents agent_id;
  agent_oh ← setitem agent_oh agent_idx 1%Z;
  Ok (numeric_scaled ++ map IZR month_oh ++ map IZR agent_oh).

(** [np.dot(xs.reshape(1, -1), theta).item() + bias], then [np.expm1]. *)
Definition predict (theta xs : list R) (bias : R) : result R :=
  if (length xs =? length theta)%nat
  then let log_price := (dot xs theta + bias)%R in Ok (exp log_price - 1)%R
  else Raise ValueError.

Definition predict_price_model (size external_storage lot_w : R)
    (sold_month agent_id : string) : result R :=
  xs ← create_feature_vector size external_storage lot_w sold_month agent_id;
  predict price_model xs price_model_bias.

End WithModel.

End Dashboard.

(* ===================================================================== *)
(** * Vocabulary of the statements *)
(* ===================================================================== *)

(** The definitions below are not part of the program: they name the
    notions that the properties are stated with. *)

Module Shapes.
Import Pandas DataClean.

(** A string is trimmed on the left when it does not start with a space. *)
Definition starts_clean (s : string) : Prop :=
  match s with
  | EmptyString => True
  | String c _ => PyStr.is_space c = false
  end.

(** [f] applied to the columns whose label is in [cols]. *)
Definition on_cols (cols : list string) (f : Series -> Series) (c : string * Series)
  : string * Series :=
  if existsb (String.eqb (fst c)) cols then (fst c, f (snd c)) else c.

(** One cell through [astype(str).str.strip()] and [replace]. *)
Definition clean_cell (str_of_num : Q -> string) (v : value) : value :=
  replace_value (VStr (PyStr.strip (astype_str str_of_num v))).

(** The dtype [replace] leaves on an object column. *)
Definition inferred (vs : list value) : dtype :=
  match vs with
  | [] => Object
  | _ :: _ => if existsb holds_text vs then Object else Numeric
  end.

(** What the three column-wise steps of the Normalizer and Coercer do to
    one column, given the labels [O] of the object columns. *)
Definition column_pass (str_of_num : Q -> string) (num_of_str : string -> option Q)
    (O : list string) (c : string * Series) : string * Series :=
  let c1 := on_cols O (strip_series str_of_num) c in
  on_cols NUMERIC_COLUMNS (to_numeric num_of_str) (fst c1, replace_series (snd c1)).

(** The condition under which [fix_typo] renames. *)
Definition typo_pending (df : DataFrame) : bool :=
  has_col "sold_in_moth" df && negb (has_col "sold_in_month" df).

(** A cell of a coerced text column: missing, or a non-empty string. *)
Definition text_cell (v : value) : Prop :=
  match v with
  | VNaN | VNone => True
  | VStr s => s <> ""
  | VNum _ => False
  end.

End Shapes.

(** The drop rules of the Business-Rule Validator as the specification
    words them, on one record. *)
Module SpecRules.
Import Pandas.

Definition record : Type := string -> value.

(** Record [i] of a table; a field the table has no column for is missing. *)
Definition record_of (df : DataFrame) (i : nat) : record :=
  fun field =>
    match get_col field df with
    | Some s => nth i (values s) VNaN
    | None => VNaN
    end.

Definition present (v : value) : bool := negb (isna v).

Definition negative (v : value) : bool :=
  match v with
  | VNum x => negb (Qle_bool 0 x)
  | _ => false
  end.

Definition sold_is (tok : string) (r : record) : bool :=
  eq_str tok (str_lower (r "sold")).

(** [sold_in_month] is present and non-empty. *)
Definition month_present (r : record) : bool :=
  match r "sold_in_month" with
  | VStr s => negb (String.eqb s "")
  | VNum _ => true
  | VNaN | VNone => false
  end.

(** Rules 3 and 4. *)
Definition sold_rules_drop (r : record) : bool :=
  (sold_is "no" r && month_present r) || (sold_is "yes" r && negb (month_present r)).

(** Rule 6. *)
Definition remodeled_drop (current_year : Q) (r : record) : bool :=
  present (r "remodeled")
  && negb (ge_val (r "remodeled") (r "year") && le_num current_year (r "remodeled")).

(** Rule 7. *)
Definition sun_factor_drop (r : record) : bool :=
  present (r "sun_factor") && negb (ge_num 0 (r "sun_factor") && le_num 1 (r "sun_factor")).

(** Rule 8. *)
Definition negative_count_drop (r : record) : bool :=
  negative (r "days_on_marked") || negative (r "bathrooms") || negative (r "kitchens").

(** Rules 6 to 8, the range rules on optional fields. *)
Definition optional_rules_drop (current_year : Q) (r : record) : bool :=
  remodeled_drop current_year r || sun_factor_drop r || negative_count_drop r.

(** Rules 1 and 5 for [price] and [size]. *)
Definition price_size_drop (r : record) : bool :=
  isna (r "price") || isna (r "size") || negative (r "price") || negb (gt_num 0 (r "size")).

(** A violation of any rule but the one on [year]. *)
Definition other_violation (current_year : Q) (r : record) : bool :=
  price_size_drop r || sold_rules_drop r || optional_rules_drop current_year r.

(** [year] lies in [[1800, current_year]]. *)
Definition year_in_range (current_year : Q) (r : record) : bool :=
  ge_num 1800 (r "year") && le_num current_year (r "year").

End SpecRules.

(** Small tables the rules are run on. *)
Module Examples.

Definition numeric (vs : list value) : Series := mkSeries Numeric vs.
Definition text (vs : list value) : Series := mkSeries Object vs.

(** Four listings as read from the file: sold in May; sold with an empty
    month; not sold with no month; not sold with a month. *)
Definition sold_raw : DataFrame :=
  [ ("price", numeric [VNum 100; VNum 200; VNum 300; VNum 400]);
    ("size", numeric [VNum 50; VNum 60; VNum 70; VNum 80]);
    ("year", numeric [VNum 2000; VNum 2001; VNum 2002; VNum 2003]);
    ("sold", text [VStr "yes"; VStr "yes"; VStr "no"; VStr "no"]);
    ("sold_in_month", text [VStr "may"; VStr ""; VNone; VStr "june"]) ].

(** The same listings once normalised and coerced. *)
Definition sold_coerced : DataFrame :=
  [ ("price", numeric [VNum 100; VNum 200; VNum 300; VNum 400]);
    ("size", numeric [VNum 50; VNum 60; VNum 70; VNum 80]);
    ("year", numeric [VNum 2000; VNum 2001; VNum 2002; VNum 2003]);
    ("sold", text [VStr "yes"; VStr "yes"; VStr "no"; VStr "no"]);
    ("sold_in_month", text [VStr "may"; VNaN; VNaN; VStr "june"]) ].

(** What the code keeps of them: the first two. *)
Definition sold_kept : DataFrame :=
  [ ("price", numeric [VNum 100; VNum 200]);
    ("size", numeric [VNum 50; VNum 60]);
    ("year", numeric [VNum 2000; VNum 2001]);
    ("sold", text [VStr "yes"; VStr "yes"]);
    ("sold_in_month", text [VStr "may"; VNaN]) ].

(** Six coerced listings: the first is complete, each of the others
    misses exactly one optional field. *)
Definition optional_coerced : DataFrame :=
  [ ("price", numeric [VNum 100; VNum 200; VNum 300; VNum 400; VNum 500; VNum 600]);
    ("size", numeric [VNum 50; VNum 60; VNum 70; VNum 80; VNum 90; VNum 95]);
    ("year", numeric [VNum 2000; VNum 2001; VNum 2002; VNum 2003; VNum 2004; VNum 2005]);
    ("remodeled", numeric [VNum 2010; VNaN; VNum 2010; VNum 2010; VNum 2010; VNum 2010]);
    ("sun_factor",
       numeric [VNum (1#2); VNum (1#2); VNaN; VNum (1#2); VNum (1#2); VNum (1#2)]);
    ("days_on_marked", numeric [VNum 30; VNum 30; VNum 30; VNaN; VNum 30; VNum 30]);
    ("bathrooms", numeric [VNum 1; VNum 1; VNum 1; VNum 1; VNaN; VNum 1]);
    ("kitchens", numeric [VNum 1; VNum 1; VNum 1; VNum 1; VNum 1; VNaN]) ].

(** What the code keeps of them: the complete one. *)
Definition optional_kept : DataFrame :=
  [ ("price", numeric [VNum 100]);
    ("size", numeric [VNum 50]);
    ("year", numeric [VNum 2000]);
    ("remodeled", numeric [VNum 2010]);
    ("sun_factor", numeric [VNum (1#2)]);
    ("days_on_marked", numeric [VNum 30]);
    ("bathrooms", numeric [VNum 1]);
    ("kitchens", numeric [VNum 1]) ].

(** One valid listing whose lot width is unknown. *)
Definition lot_raw : DataFrame :=
  [ ("price", numeric [VNum 100]);
    ("size", numeric [VNum 50]);
    ("year", numeric [VNum 2000]);
    ("lot_w", text [VStr "unknown"]) ].

Definition lot_coerced : DataFrame :=
  [ ("price", numeric [VNum 100]);
    ("size", numeric [VNum 50]);
    ("year", numeric [VNum 2000]);
    ("lot_w", numeric [VNaN]) ].

(** Five coerced listings built in 2000, 1799, 2026, 1800 and 2025; the
    first has no sun factor, nothing else is wrong with any of them. *)
Definition year_coerced : DataFrame :=
  [ ("price", numeric [VNum 100; VNum 200; VNum 300; VNum 400; VNum 500]);
    ("size", numeric [VNum 50; VNum 60; VNum 70; VNum 80; VNum 90]);
    ("year", numeric [VNum 2000; VNum 1799; VNum 2026; VNum 1800; VNum 2025]);
    ("sun_factor", numeric [VNaN; VNum (1#2); VNum (1#2); VNum (1#2); VNum (1#2)]) ].

(** What the code keeps of them: the listings of 1800 and 2025. *)
Definition year_kept : DataFrame :=
  [ ("price", numeric [VNum 400; VNum 500]);
    ("size", numeric [VNum 80; VNum 90]);
    ("year", numeric [VNum 1800; VNum 2025]);
    ("sun_factor", numeric [VNum (1#2); VNum (1#2)]) ].

End Examples.

Module LineVocabulary.
Import Json.

(** [clean_file] after one more line was counted and nothing written. *)
Definition counted (st : CleanHouses.state) : CleanHouses.state :=
  CleanHouses.mkState (S (CleanHouses.total st)) (CleanHouses.removed_sold_no st)
    (CleanHouses.removed_missing_year st) (CleanHouses.rooms_fixed st)
    (CleanHouses.outf st).

(** The outlier pass after one more line was counted and [text] written
    as a line of its own. *)
Definition passed (st : DomOutliers.counters) (text : string) : DomOutliers.counters :=
  DomOutliers.mkCounters (S (DomOutliers.total st)) (DomOutliers.removed st)
    (DomOutliers.dst st ++ [text +:+ newline]).

Section WithJson.

Variable json_loads : string -> option json.
Variable json_dumps : json -> string.
Variable float_of_str : string -> option Q.


(** A line that parses to a record whose [days_on_marked] equals 100. *)
Definition outlier_record (line : string) : bool :=
  negb (String.eqb (PyStr.strip line) "") &&
  match json_loads (PyStr.strip line) with
  | Some (JObj fields) =>
      DomOutliers.is_days_equal_100 float_of_str
        (default JNull (dict_get "days_on_marked" fields))
  | _ => false
  end.



End WithJson.

(** Stand-ins for [json.loads], [json.dumps] and [float] that know one
    record and one number. *)
Definition sample_loads (text : string) : option json :=
  if String.eqb text "{}" then Some (JObj []) else None.

Definition sample_dumps (_ : json) : string := "{}".

Definition sample_float (text : string) : option Q :=
  if String.eqb text "100" then Some 100%Q else None.

End LineVocabulary.

Module Encoding.
Import Dashboard.

(** One step of the dictionary comprehension of [index_dict]. *)
Definition put (d : gmap string nat) (ik : nat * string) : gmap string nat :=
  <[snd ik := fst ik]> d.

(** The one-hot list built by [[0] * n] and [l[i] = 1], as floats. *)
Definition one_hot (n i : nat) : list R := map IZR (<[i := 1%Z]> (replicate n 0%Z)).


End Encoding.

Module TableShapes.
Import Pandas DataClean.

(** The number of cells of each column, in order. *)
Definition heights (df : DataFrame) : list nat :=
  map (fun c => length (values (snd c))) df.

(** A cell of a numeric column: a float or NaN. *)
Definition float_cell (v : value) : bool :=
  match v with
  | VNum _ | VNaN => true
  | VNone | VStr _ => false
  end.

(** A cell of a normalised text column: NaN, or a string with no
    surrounding whitespace that is none of the placeholders. *)
Definition tidy_text_cell (v : value) : Prop :=
  v = VNaN \/ exists t, v = VStr t /\ is_placeholder t = false /\ PyStr.strip t = t.



(** Every cell of the column [name], if the table has one, satisfies [P]. *)
Definition column_all (P : value -> Prop) (name : string) (df : DataFrame) : Prop :=
  forall s, get_col name df = Some s -> Forall P (values s).



End TableShapes.

Module LineCounts.
Import Json.

(** A line that the loops look at: not blank once stripped. *)
Definition nonblank (line : string) : bool := negb (String.eqb (PyStr.strip line) "").

(** A line that the loops look at and [json.loads] rejects. *)
Definition malformed (json_loads : string -> option json) (line : string) : bool :=
  nonblank line &&
  match json_loads (PyStr.strip line) with
  | None => true
  | Some _ => false
  end.

(** A line that the loops look at and that parses to something other
    than a JSON object. *)
Definition not_a_record (json_loads : string -> option json) (line : string) : bool :=
  nonblank line &&
  match json_loads (PyStr.strip line) with
  | None | Some (JObj _) => false
  | Some _ => true
  end.

(** [sum(1 for line in l if p(line))] *)
Definition count (p : string -> bool) (l : lines) : nat := length (List.filter p l).

(** What [clean_file] may write: the dump of a record that has a year,
    is not marked as not sold and whose rooms are not the empty string. *)
Definition clean_record_line (json_dumps : json -> string) (line : string) : Prop :=
  exists fields,
    line = json_dumps (JObj fields) +:+ newline
    /\ CleanHouses.year_missing fields = false
    /\ CleanHouses.sold_is_no (default JNull (dict_get "sold" fields)) = false
    /\ is_empty_str (default JNull (dict_get "rooms" fields)) = false.

(** A line that the outlier pass copies as it is: it counts the line,
    removes nothing and writes the very same line. *)
Definition copied_as_is (json_loads : string -> option json) (json_dumps : json -> string)
    (float_of_str : string -> option Q) (line : string) : Prop :=
  forall st,
    DomOutliers.step json_loads json_dumps float_of_str st line
    = Ok (DomOutliers.mkCounters (S (DomOutliers.total st)) (DomOutliers.removed st)
            (DomOutliers.dst st ++ [line])).

(** A stand-in for [json.loads] that knows one record and one array. *)
Definition sample_loads_array (text : string) : option json :=
  if String.eqb text "{}" then Some (JObj [])
  else if String.eqb text "[]" then Some (JArr [])
  else None.

(** A stand-in for [json.loads] that knows one record, built in 1990
    with an empty [rooms]. *)
Definition sample_loads_record (text : string) : option json :=
  if String.eqb text "house"
  then Some (JObj [("year", JNum 1990); ("rooms", JStr "")])
  else None.

(** Stand-ins for [json.loads] and [json.dumps] that know two records,
    one of them with [days_on_marked] equal to 100, each printed as it
    is read. *)
Definition sample_loads_outlier (text : string) : option json :=
  if String.eqb text "{}" then Some (JObj [])
  else if String.eqb text "outlier" then Some (JObj [("days_on_marked", JNum 100)])
  else None.

Definition sample_dumps_outlier (obj : json) : string :=
  match obj with
  | JObj [] => "{}"
  | _ => "outlier"
  end.

End LineCounts.

(* ===================================================================== *)
(** * scripts/plot.py *)
(* ===================================================================== *)

(** The data functions of the plotting script; drawing the figure is
    left out. *)
Module Plot.
Import Json.

(** A row as the functions index it: a dict. *)
Definition dict : Type := list (string * json).

(** [s.replace(",", ".")] *)
Fixpoint replace_comma (s : string) : string :=
  match s with
  | EmptyString => EmptyString
  | String c s' =>
      String (if Ascii.eqb c (ascii_of_nat 44) then ascii_of_nat 46 else c) (replace_comma s')
  end.

(** How [read_jsonl] ends. *)
Inductive read_outcome : Type :=
| FileNotFoundError
| Data (rows : list json).

(** One entry of the dictionary that [infer_features] builds. *)
Record feature : Type := mkFeature { numeric : bool; sample : json }.

Definition features : Type := list (string * feature).

(** [k in features] and [features[k]] *)
Fixpoint feat_get (k : string) (fs : features) : option feature :=
  match fs with
  | [] => None
  | (k', f) :: fs' => if String.eqb k' k then Some f else feat_get k fs'
  end.

(** [features[k] = f] for a key that may be new. *)
Fixpoint feat_set (k : string) (f : feature) (fs : features) : features :=
  match fs with
  | [] => [(k, f)]
  | (k', f') :: fs' =>
      if String.eqb k' k then (k', f) :: fs' else (k', f') :: feat_set k f fs'
  end.

(** How [main] ends: what it printed or did last. *)
Inductive main_outcome (float : Type) : Type :=
| NoFile
| Listed (fs : features)
| UnknownFeature (key : string)
| NoPoints
| Plotted (x y : list float)
| PlotFailed (e : exn)
| Crashed (e : exn).
Arguments NoFile {float}.
Arguments Listed {float} fs.
Arguments UnknownFeature {float} key.
Arguments NoPoints {float}.
Arguments Plotted {float} x y.
Arguments PlotFailed {float} e.
Arguments Crashed {float} e.

Section WithLibrary.

(** Python floats, NaN and the infinities included. *)
Context {float : Type}.
(** [json.loads]: [None] when it raises [JSONDecodeError]. *)
Variable json_loads : string -> option json.
(** [float(s)] on a string: [None] when it raises [ValueError]. *)
Variable float_of_str : string -> option float.
(** [float(x)] on a number: [None] when it raises [OverflowError]. *)
Variable float_of_num : Q -> option float.
(** [float(True)] and [float(False)]. *)
Variable float_of_bool : bool -> float.
(** [re.search(r"[-+]?[0-9]*\.?[0-9]+", s)]: the text of the match. *)
Variable search_number : string -> option string.
(** The calls into plotly that build the figure; showing it never raises. *)
Variable scatter : list float -> list float -> string -> string -> result unit.

(** The loop of [read_jsonl]. *)
Fixpoint read_lines (data : list json) (f : lines) : list json :=
  match f with
  | [] => data
  | line :: f' =>
      let line := PyStr.strip line in
      if String.eqb line "" then read_lines data f'
      else match json_loads line with
           | Some obj => read_lines (data ++ [obj]) f'
           | None => read_lines data f'
           end
  end.

(** [read_jsonl(path)], the file being absent or holding [f]. *)
Definition read_jsonl (file : option lines) : read_outcome :=
  match file with
  | None => FileNotFoundError
  | Some f => Data (read_lines [] f)
  end.

(** [float(v)] inside [try ... except Exception]: [None] when it raises. *)
Definition try_float (v : json) : option float :=
  match v with
  | JNum q => float_of_num q
  | JBool b => Some (float_of_bool b)
  | JStr s => float_of_str s
  | JNull | JArr _ | JObj _ => None
  end.

(** The body of the inner loop of [infer_features], for one item. *)
Definition see_item (fs : features) (item : string * json) : features :=
  let '(k, v) := item in
  let fs := match feat_get k fs with
            | Some _ => fs
            | None => fs ++ [(k, mkFeature true JNull)]
            end in
  let fs := match feat_get k fs with
            | Some f =>
                if is_none (sample f) && negb (is_none v)
                then feat_set k (mkFeature (numeric f) v) fs
                else fs
            | None => fs
            end in
  if is_none v then fs
  else match try_float v with
       | Some _ => fs
       | None =>
           match feat_get k fs with
           | Some f => feat_set k (mkFeature false (sample f)) fs
           | None => fs
           end
       end.

Fixpoint infer_loop (fs : features) (data : list json) : result features :=
  match data with
  | [] => Ok fs
  | JObj items :: data' => infer_loop (fold_left see_item items fs) data'
  | _ :: _ => Raise AttributeError
  end.

Definition infer_features (data : list json) : result features := infer_loop [] data.

(** The conversion of one value in [collect_numeric]: [None] when the
    row is skipped. *)
Definition collect_value (v : json) : option float :=
  match v with
  | JStr s =>
      let cleaned := replace_comma s in
      match float_of_str cleaned with
      | Some num => Some num
      | None =>
          match search_number cleaned with
          | Some m => float_of_str m
          | None => None
          end
      end
  | other => try_float other
  end.

Fixpoint collect_loop (vals : list float) (key : string) (data : list dict) : list float :=
  match data with
  | [] => vals
  | row :: data' =>
      match dict_get key row with
      | None => collect_loop vals key data'
      | Some v =>
          if is_none v then collect_loop vals key data'
          else match collect_value v with
               | Some num => collect_loop (vals ++ [num]) key data'
               | None => collect_loop vals key data'
               end
      end
  end.

Definition collect_numeric (data : list dict) (key : string) : list float :=
  collect_loop [] key data.

(** [to_num] of [prepare_xy]: the float of the regular-expression match
    is taken outside of any [try]. *)
Definition to_num (v : json) : result (option float) :=
  match v with
  | JStr s =>
      let v2 := replace_comma s in
      match float_of_str v2 with
      | Some num => Ok (Some num)
      | None =>
          match search_number v2 with
          | Some m =>
              match float_of_str m with
              | Some num => Ok (Some num)
              | None => Raise ValueError
              end
          | None => Ok None
          end
      end
  | other => Ok (try_float other)
  end.

Fixpoint prepare_loop (x_vals y_vals : list float) (x_key y_key : string) (data : list dict)
  : result (list float * list float) :=
  match data with
  | [] => Ok (x_vals, y_vals)
  | row :: data' =>
      match dict_get x_key row, dict_get y_key row with
      | Some vx, Some vy =>
          if is_none vx || is_none vy then prepare_loop x_vals y_vals x_key y_key data'
          else
            nx ← to_num vx;
            ny ← to_num vy;
            match nx, ny with
            | Some nx, Some ny =>
                prepare_loop (x_vals ++ [nx]) (y_vals ++ [ny]) x_key y_key data'
            | _, _ => prepare_loop x_vals y_vals x_key y_key data'
            end
      | _, _ => prepare_loop x_vals y_vals x_key y_key data'
      end
  end.

Definition prepare_xy (data : list dict) (x_key y_key : string)
  : result (list float * list float) :=
  prepare_loop [] [] x_key y_key data.

Definition plot_xy (x y : list float) (x_label y_label : string) : result unit :=
  if (length x =? 0)%nat || (length y =? 0)%nat then Raise ValueError
  else scatter x y x_label y_label.

(** The rows [main] hands to [prepare_xy], which [infer_features] has
    gone through without raising: dicts. *)
Fixpoint as_dicts (data : list json) : list dict :=
  match data with
  | [] => []
  | JObj items :: data' => items :: as_dicts data'
  | _ :: data' => as_dicts data'
  end.

(** [main], given the file and the command line ([--x], [--y], [--list],
    [--limit]). *)
Definition main (file : option lines) (x_key y_key : string) (list_only : bool) (limit : Z)
  : main_outcome float :=
  match read_jsonl file with
  | FileNotFoundError => NoFile
  | Data data =>
      let data := if (0 <? limit)%Z then firstn (Z.to_nat limit) data else data in
      match infer_features data with
      | Raise e => Crashed e
      | Ok fs =>
          if list_only then Listed fs
          else match feat_get x_key fs with
               | None => UnknownFeature x_key
               | Some _ =>
                   match feat_get y_key fs with
                   | None => UnknownFeature y_key
                   | Some _ =>
                       match prepare_xy (as_dicts data) x_key y_key with
                       | Raise e => Crashed e
                       | Ok (x_vals, y_vals) =>
                           if (length x_vals =? 0)%nat then NoPoints
                           else match plot_xy x_vals y_vals x_key y_key with
                                | Ok _ => Plotted x_vals y_vals
                                | Raise e => PlotFailed e
                                end
                       end
                   end
               end
      end
  end.

End WithLibrary.

End Plot.

Module PlotVocabulary.
Import Json Plot.

(** The items of all the rows, in the order [infer_features] visits
    them. *)
Fixpoint items_of (data : list json) : list (string * json) :=
  match data with
  | [] => []
  | JObj items :: data' => items ++ items_of data'
  | _ :: data' => items_of data'
  end.

(** The values that the items hold under [k], [None] included. *)
Fixpoint values_under (k : string) (items : list (string * json)) : list json :=
  match items with
  | [] => []
  | (k', v) :: items' =>
      if String.eqb k' k then v :: values_under k items' else values_under k items'
  end.

(** The first value that is not [None], or [None]. *)
Fixpoint first_sample (vs : list json) : json :=
  match vs with
  | [] => JNull
  | v :: vs' => if is_none v then first_sample vs' else v
  end.

(** A row that is a dict. *)
Definition is_record (row : json) : bool :=
  match row with
  | JObj _ => true
  | _ => false
  end.

Section WithLibrary.
Context {float : Type}.
Variable float_of_str : string -> option float.
Variable float_of_num : Q -> option float.
Variable float_of_bool : bool -> float.

(** A value that does not speak against a numeric feature: [None], or a
    value that [float] accepts. *)
Definition converts (v : json) : bool :=
  is_none v ||
  match try_float float_of_str float_of_num float_of_bool v with
  | Some _ => true
  | None => false
  end.

(** An entry after more values have been seen under its key. *)
Definition seen (f : option feature) (vs : list json) : option feature :=
  match f, vs with
  | None, [] => None
  | None, _ :: _ => Some (mkFeature (forallb converts vs) (first_sample vs))
  | Some f, _ =>
      Some (mkFeature (numeric f && forallb converts vs)
              (if is_none (sample f) then first_sample vs else sample f))
  end.

End WithLibrary.

(** Stand-ins for [float] on strings and numbers and for the
    regular-expression search: one text is a number, nothing is ever
    matched. *)
Definition sample_float_of_str (text : string) : option Q :=
  if String.eqb text "1.5" then Some (3 # 2) else None.

Definition sample_float_of_num (q : Q) : option Q := Some q.

Definition sample_float_of_bool (b : bool) : Q := if b then 1 else 0.

Definition sample_search (text : string) : option string := None.

(** A plotting library that rejects every figure. *)
Definition failing_scatter (x y : list Q) (x_label y_label : string) : result unit :=
  Raise TypeError.

(** Two rows: a size given as text with a decimal comma, and a size
    that is missing. *)
Definition sample_rows : list dict :=
  [ [("size", JStr "1,5"); ("price", JNum 10)];
    [("size", JNull); ("price", JNum 20)] ].

(** A stand-in for [json.loads] that knows one record and one array. *)
Definition sample_loads_rows (text : string) : option json :=
  if String.eqb text "house" then Some (JObj [("size", JStr "1,5"); ("price", JNum 10)])
  else if String.eqb text "[]" then Some (JArr [])
  else None.

End PlotVocabulary.

Ltac run := cbn [mbind result_bind].

(* ===================================================================== *)
(** * Properties *)
(* ===================================================================== *)

Module PyStrFacts.
Import PyStr Shapes.

Lemma lower_ascii_idem c : lower_ascii (lower_ascii c) = lower_ascii c.
Proof. destruct c as [[] [] [] [] [] [] [] []]; reflexivity. Qed.

Lemma lower_idem s : lower (lower s) = lower s.
Proof. induction s as [|c s IH]; simpl; [done|]. by rewrite lower_ascii_idem, IH. Qed.

Lemma lstrip_clean s : starts_clean (lstrip s).
Proof.
  induction s as [|c s IH]; simpl; [done|].
  destruct (is_space c) eqn:E; [done|]. simpl. done.
Qed.

Lemma lstrip_fixed s : starts_clean s → lstrip s = s.
Proof. destruct s as [|c s]; simpl; [done|]. by intros ->. Qed.

Lemma rstrip_clean s : starts_clean s → starts_clean (rstrip s).
Proof.
  destruct s as [|c s]; simpl; [done|]. intros Hc.
  destruct (rstrip s); rewrite ?Hc; done.
Qed.

Lemma rstrip_idem s : rstrip (rstrip s) = rstrip s.
Proof.
  induction s as [|c s IH]; simpl; [done|].
  destruct (rstrip s) as [|d r] eqn:E.
  - destruct (is_space c) eqn:Hc; simpl; [done|]. by rewrite Hc.
  - simpl in *. by rewrite IH.
Qed.

Lemma strip_idem s : strip (strip s) = strip s.
Proof.
  unfold strip. rewrite (lstrip_fixed (rstrip (lstrip s))).
  - apply rstrip_idem.
  - apply rstrip_clean, lstrip_clean.
Qed.

End PyStrFacts.

Module NormalizerFacts.
Import Pandas DataClean Shapes PyStrFacts.

Lemma fold_assign f cols : (∀ s, f (f s) = f s) → ∀ df,
  fold_left (fun d col => assign col f d) cols df = map (on_cols cols f) df.
Proof.
  intros Hf. induction cols as [|col cols IH]; intros df; simpl.
  - symmetry. apply map_id.
  - rewrite IH. unfold assign. rewrite map_map. apply map_ext.
    intros [n s]. unfold on_cols; simpl.
    destruct (String.eqb n col); simpl; [|done].
    destruct (existsb (String.eqb n) cols); by rewrite ?Hf.
Qed.

Lemma assign_absent col f df : has_col col df = false → assign col f df = df.
Proof.
  unfold has_col, columns, assign. induction df as [|[n s] df IH]; simpl; [done|].
  intros H. apply orb_false_iff in H as [H1 H2].
  rewrite String.eqb_sym, H1. f_equal. by apply IH.
Qed.

Section WithEnvironment.
Variable str_of_num : Q -> string.
Variable num_of_str : string -> option Q.

Lemma to_numeric_idem s :
  to_numeric num_of_str (to_numeric num_of_str s) = to_numeric num_of_str s.
Proof.
  unfold DataClean.to_numeric; simpl. f_equal. rewrite map_map. apply map_ext.
  intros [| |q|t]; simpl; try done. by destruct (num_of_str t).
Qed.

Lemma strip_series_idem s :
  strip_series str_of_num (strip_series str_of_num s) = strip_series str_of_num s.
Proof.
  unfold DataClean.strip_series; simpl. f_equal. rewrite map_map. apply map_ext.
  intros v; simpl. by rewrite strip_idem.
Qed.

Lemma strip_strings_map df :
  strip_strings str_of_num df = map (on_cols (object_columns df) (strip_series str_of_num)) df.
Proof. apply fold_assign, strip_series_idem. Qed.

Lemma coerce_numeric_map df :
  coerce_numeric num_of_str df = map (on_cols NUMERIC_COLUMNS (to_numeric num_of_str)) df.
Proof.
  unfold DataClean.coerce_numeric. rewrite <- (fold_assign _ _ to_numeric_idem).
  generalize NUMERIC_COLUMNS. intros cols. revert df.
  induction cols as [|col cols IH]; intros df; simpl; [done|].
  destruct (has_col col df) eqn:E; [done|]. by rewrite assign_absent.
Qed.

Lemma clean_cell_idem v :
  clean_cell str_of_num (clean_cell str_of_num v) = clean_cell str_of_num v.
Proof.
  unfold clean_cell. set (t := PyStr.strip (astype_str str_of_num v)).
  simpl. destruct (is_placeholder t) eqn:E; simpl.
  - reflexivity.
  - subst t. by rewrite strip_idem, E.
Qed.

Lemma replace_object vs :
  replace_series (mkSeries Object vs)
  = mkSeries (inferred (map replace_value vs)) (map replace_value vs).
Proof.
  unfold replace_series, inferred; simpl.
  destruct (map replace_value vs); [done|]. by destruct (existsb _ _).
Qed.

Lemma replace_numeric s : dt s = Numeric → replace_series s = s.
Proof. unfold replace_series. by intros ->. Qed.

Lemma replace_strip s :
  replace_series (strip_series str_of_num s)
  = mkSeries (inferred (map (clean_cell str_of_num) (values s)))
             (map (clean_cell str_of_num) (values s)).
Proof. unfold DataClean.strip_series. by rewrite replace_object, map_map. Qed.

Lemma replace_strip_idem s :
  replace_series (strip_series str_of_num (replace_series (strip_series str_of_num s)))
  = replace_series (strip_series str_of_num s).
Proof.
  rewrite !replace_strip; simpl. rewrite map_map.
  rewrite (map_ext _ _ clean_cell_idem). done.
Qed.

Lemma column_pass_name O c : fst (column_pass str_of_num num_of_str O c) = fst c.
Proof.
  unfold column_pass, on_cols. generalize NUMERIC_COLUMNS. intros N.
  destruct c as [n s]; cbn [fst snd].
  destruct (existsb (String.eqb n) O); cbn [fst snd];
    destruct (existsb (String.eqb n) N); done.
Qed.

Lemma columnwise df :
  coerce_numeric num_of_str (replace_placeholders (strip_strings str_of_num df))
  = map (column_pass str_of_num num_of_str (object_columns df)) df.
Proof.
  rewrite coerce_numeric_map, strip_strings_map.
  unfold replace_placeholders. rewrite !map_map. apply map_ext. by intros c.
Qed.

Lemma columns_map (g : string * Series -> string * Series) df :
  (∀ c, fst (g c) = fst c) → columns (map g df) = columns df.
Proof. intros Hg. unfold columns. rewrite map_map. by apply map_ext. Qed.

Lemma has_col_map (g : string * Series -> string * Series) col df :
  (∀ c, fst (g c) = fst c) → has_col col (map g df) = has_col col df.
Proof. intros Hg. unfold has_col. by rewrite columns_map. Qed.

Lemma rename_clears df : has_col "sold_in_moth" (rename "sold_in_moth" "sold_in_month" df) = false.
Proof.
  unfold has_col, columns, rename. induction df as [|[n s] df IH]; [done|].
  cbn [map existsb fst snd]. rewrite IH, orb_false_r.
  destruct (String.eqb_spec n "sold_in_moth") as [->|Hne]; cbn [fst]; [done|].
  apply String.eqb_neq. intros H. by apply Hne.
Qed.

Lemma names_normal df :
  let d := fix_typo (lowercase_columns df) in
  (∀ c, In c d → PyStr.lower (fst c) = fst c) ∧ typo_pending d = false.
Proof.
  cbn zeta. unfold fix_typo. fold (typo_pending (lowercase_columns df)).
  assert (∀ c, In c (lowercase_columns df) → PyStr.lower (fst c) = fst c) as Hlow.
  { intros c Hc. apply List.in_map_iff in Hc as (c0 & <- & _). apply lower_idem. }
  destruct (typo_pending (lowercase_columns df)) eqn:E; [|done].
  split.
  - intros c Hc. apply List.in_map_iff in Hc as (c0 & <- & Hc0).
    destruct (String.eqb (fst c0) "sold_in_moth"); [done|by apply Hlow].
  - unfold typo_pending. by rewrite rename_clears.
Qed.

Lemma names_fixed d :
  (∀ c, In c d → PyStr.lower (fst c) = fst c) → typo_pending d = false →
  fix_typo (lowercase_columns d) = d.
Proof.
  intros Hlow Hty.
  assert (lowercase_columns d = d) as ->.
  { unfold lowercase_columns. rewrite <- (map_id d) at 2. apply map_ext_in.
    intros [n s] Hc. cbn [fst snd]. f_equal. apply (Hlow _ Hc). }
  unfold fix_typo. fold (typo_pending d). by rewrite Hty.
Qed.

Lemma object_columns_intro df c :
  In c df → dt (snd c) = Object → existsb (String.eqb (fst c)) (object_columns df) = true.
Proof.
  intros Hc Hdt. apply List.existsb_exists. exists (fst c). split; [|apply String.eqb_refl].
  unfold object_columns. apply List.in_map. apply List.filter_In. by rewrite Hdt.
Qed.

Lemma object_columns_elim df n :
  existsb (String.eqb n) (object_columns df) = true →
  ∃ c, In c df ∧ fst c = n ∧ dt (snd c) = Object.
Proof.
  intros H. apply List.existsb_exists in H as (m & Hm & Heq).
  apply String.eqb_eq in Heq as <-.
  apply List.in_map_iff in Hm as (c & <- & Hc). apply List.filter_In in Hc as [Hc Hdt].
  exists c. split; [done|]. split; [done|]. by destruct (dt (snd c)).
Qed.

Lemma numeric_unless_object df c :
  In c df → existsb (String.eqb (fst c)) (object_columns df) = false → dt (snd c) = Numeric.
Proof.
  intros Hc HO. destruct (dt (snd c)) eqn:E; [|done].
  by rewrite (object_columns_intro df c Hc E) in HO.
Qed.

Lemma pass_numeric d c :
  In c d →
  existsb (String.eqb (fst c)) NUMERIC_COLUMNS = true
  ∨ existsb (String.eqb (fst c)) (object_columns d) = false →
  dt (snd (column_pass str_of_num num_of_str (object_columns d) c)) = Numeric.
Proof.
  intros Hc Hcase. pose proof (numeric_unless_object d c Hc) as Hnum.
  revert Hcase. unfold column_pass, on_cols. generalize NUMERIC_COLUMNS. intros N.
  destruct c as [n s]; cbn [fst snd] in *.
  destruct (existsb (String.eqb n) (object_columns d)); cbn [fst snd];
    destruct (existsb (String.eqb n) N); cbn [fst snd]; try done.
  - intros [?|?]; done.
  - intros _. rewrite replace_numeric; auto.
Qed.

Lemma not_object_after d c :
  In c d →
  existsb (String.eqb (fst c)) NUMERIC_COLUMNS = true
  ∨ existsb (String.eqb (fst c)) (object_columns d) = false →
  existsb (String.eqb (fst c))
    (object_columns (map (column_pass str_of_num num_of_str (object_columns d)) d))
  = false.
Proof.
  intros Hc Hcase. apply not_true_is_false. intros HO2.
  apply object_columns_elim in HO2 as (c2 & Hin & Hname & Hobj).
  apply List.in_map_iff in Hin as (c3 & <- & Hc3).
  rewrite column_pass_name in Hname. rewrite <- Hname in Hcase.
  rewrite (pass_numeric d c3 Hc3 Hcase) in Hobj. done.
Qed.

Lemma column_pass_fixed d c :
  let O1 := object_columns d in
  let O2 := object_columns (map (column_pass str_of_num num_of_str O1) d) in
  In c d →
  column_pass str_of_num num_of_str O2 (column_pass str_of_num num_of_str O1 c)
  = column_pass str_of_num num_of_str O1 c.
Proof.
  intros O1 O2 Hc.
  pose proof (not_object_after d c Hc) as Hnot.
  pose proof (numeric_unless_object d c Hc) as Hnum.
  pose proof (numeric_unless_object _ _
                (List.in_map (column_pass str_of_num num_of_str O1) d c Hc)) as Hnum2.
  rewrite column_pass_name in Hnum2.
  fold O1 in Hnot, Hnum. fold O2 in Hnot, Hnum2.
  revert Hnot Hnum2. unfold column_pass, on_cols. generalize NUMERIC_COLUMNS. intros N.
  destruct c as [n s]; cbn [fst snd] in *.
  destruct (existsb (String.eqb n) O1) eqn:EO1; cbn [fst snd];
    destruct (existsb (String.eqb n) N) eqn:EN; cbn [fst snd]; rewrite ?EN;
    intros Hnot Hnum2.
  - rewrite Hnot by auto. cbn [fst snd]. rewrite EN.
    rewrite (replace_numeric (to_numeric num_of_str _)) by done. by rewrite to_numeric_idem.
  - destruct (existsb (String.eqb n) O2) eqn:EO2; cbn [fst snd]; rewrite EN.
    + by rewrite replace_strip_idem.
    + by rewrite (replace_numeric (replace_series _)) by auto.
  - rewrite Hnot by auto. cbn [fst snd]. rewrite EN.
    rewrite (replace_numeric (to_numeric num_of_str _)) by done. by rewrite to_numeric_idem.
  - rewrite Hnot by auto. cbn [fst snd]. rewrite EN.
    by rewrite !(replace_numeric s) by auto.
Qed.

(** Claim C8.  The Normalizer and Coercer stage is idempotent: run a
    second time on its own output, it returns that output unchanged
    (labels, dtypes and every cell of every record). *)
Theorem normalize_coerce_idempotent df :
  normalize_coerce str_of_num num_of_str (normalize_coerce str_of_num num_of_str df)
  = normalize_coerce str_of_num num_of_str df.
Proof.
  unfold DataClean.normalize_coerce.
  destruct (names_normal df) as [Hlow Hty].
  set (d := fix_typo (lowercase_columns df)) in *.
  rewrite (columnwise d).
  rewrite names_fixed.
  - rewrite columnwise, map_map. apply map_ext_in. intros c Hc.
    by apply column_pass_fixed.
  - intros c Hc. apply List.in_map_iff in Hc as (c0 & <- & Hc0).
    rewrite column_pass_name. by apply Hlow.
  - unfold typo_pending. rewrite !has_col_map by apply column_pass_name. exact Hty.
Qed.

End WithEnvironment.

End NormalizerFacts.

Module ValidatorFacts.
Import Pandas DataClean Shapes SpecRules Examples.

Lemma missing_compares_false v : isna v = true →
  ∀ q, ge_num q v = false ∧ gt_num q v = false ∧ le_num q v = false.
Proof. destruct v; try discriminate; done. Qed.

Lemma missing_fails_range v : isna v = true →
  sun_ok v = false ∧ (∀ cy, year_ok cy v = false)
  ∧ (∀ cy y, ge_val v y && le_num cy v = false).
Proof. destruct v; try discriminate; done. Qed.


Lemma year_1799_rejected cy : year_ok cy (VNum 1799) = false.
Proof. reflexivity. Qed.

Lemma year_after_current_rejected cy : year_ok cy (VNum (cy + 1)) = false.
Proof.
  unfold year_ok, le_num. apply andb_false_iff. right.
  apply not_true_is_false. rewrite Qle_bool_iff. intros H.
  apply (Qlt_irrefl cy). eapply Qlt_le_trans; [|exact H].
  rewrite <- (Qplus_0_r cy) at 1. apply Qplus_lt_r. reflexivity.
Qed.




Lemma cast_fold_raise cols e :
  fold_left (fun acc c => d ← acc; cast_column c d) cols (Raise e) = Raise e.
Proof. induction cols as [|c cols IH]; [done|]. cbn. apply IH. Qed.



Section WithEnvironment.
Variable str_of_num : Q -> string.
Variable num_of_str : string -> option Q.

Lemma astype_str_nonempty v : text_cell v → PyStr.len (astype_str str_of_num v) ≠ 0.
Proof. destruct v as [| |q|[|c s]]; simpl; done. Qed.

Lemma missing_month_mask_false sold month :
  Forall text_cell (values month) →
  Forall (λ b, b = false) (missing_month_mask str_of_num sold month).
Proof.
  unfold missing_month_mask. destruct month as [d vs]; cbn [values].
  intros H. revert sold.
  induction H as [|v vs Hv _ IH]; intros [|s sold]; cbn [map mask_and]; try done.
  constructor; [|apply IH].
  apply astype_str_nonempty, Nat.eqb_neq in Hv. rewrite Hv. apply andb_false_r.
Qed.

Lemma inconsistent_mask_ignores_month sold month :
  Forall text_cell (values month) → length sold = length (values month) →
  inconsistent_mask str_of_num sold month
  = map (λ v, eq_str "no" (str_lower v)) sold.
Proof.
  unfold inconsistent_mask. destruct month as [d vs]; cbn [values].
  intros H. revert sold.
  induction H as [|v vs Hv _ IH]; intros [|s sold]; cbn [map mask_and length]; try done.
  intros [= Hlen]. rewrite IH by done. f_equal.
  apply astype_str_nonempty in Hv.
  destruct (PyStr.len _); [done|]. apply andb_true_r.
Qed.

(** Claim C1.  The two sold / sold_in_month rules on four coerced
    listings (sold with a month, sold without a month, not sold
    without a month, not sold with a month).  The specification drops
    the second and the fourth; the code drops the third and the
    fourth: its first rule flags every listing that is not sold, its
    second rule flags nothing. *)
Theorem sold_rules_on_listings :
  map (fun i => sold_rules_drop (record_of sold_coerced i)) [0; 1; 2; 3]
  = [false; true; false; true]
  ∧ inconsistent_mask str_of_num
      [VStr "yes"; VStr "yes"; VStr "no"; VStr "no"]
      (text [VStr "may"; VNaN; VNaN; VStr "june"])
    = [false; false; true; true]
  ∧ missing_month_mask str_of_num
      [VStr "yes"; VStr "yes"; VStr "no"; VStr "no"]
      (text [VStr "may"; VNaN; VNaN; VStr "june"])
    = [false; false; false; false]
  ∧ validate 2025 str_of_num sold_coerced = Ok sold_kept
  ∧ clean_data 2025 str_of_num num_of_str sold_raw = Ok sold_kept.
Proof. repeat split; vm_compute; reflexivity. Qed.

(** Claim C2.  The range rules on six coerced listings, five of which
    miss one optional field each (remodeled, sun_factor,
    days_on_marked, bathrooms, kitchens).  None of the six is dropped
    by the rules as the specification words them; the code keeps the
    complete listing only. *)
Theorem range_rules_on_listings :
  map (fun i => optional_rules_drop 2025 (record_of optional_coerced i)) (seq 0 6)
  = [false; false; false; false; false; false]
  ∧ range_filters 2025 optional_coerced = optional_kept
  ∧ validate 2025 str_of_num optional_coerced = Ok optional_kept.
Proof. repeat split; vm_compute; reflexivity. Qed.

(** Claim C3.  The final cast on a valid listing whose [lot_w] is
    missing: the listing passes every drop rule, and the cast raises
    instead of keeping the missing marker. *)
Theorem integer_cast_on_missing_lot_width :
  range_filters 2025 lot_coerced = lot_coerced
  ∧ cast_integers lot_coerced = Raise IntCastingNaNError
  ∧ validate 2025 str_of_num lot_coerced = Raise IntCastingNaNError
  ∧ clean_data 2025 str_of_num num_of_str lot_raw = Raise IntCastingNaNError.
Proof. repeat split; vm_compute; reflexivity. Qed.

(** Claim C7.  The year rule on five coerced listings built in 2000,
    1799, 2026, 1800 and 2025, the current year being 2025.  The
    listings of 1799 and 2026 are dropped and those of 1800 and 2025
    survive; the listing of 2000, which violates no rule of the
    specification, is dropped because its sun factor is missing. *)
Theorem year_rule_on_listings :
  map (fun i => other_violation 2025 (record_of year_coerced i)) (seq 0 5)
  = [false; false; false; false; false]
  ∧ map (fun i => year_in_range 2025 (record_of year_coerced i)) (seq 0 5)
    = [true; false; false; true; true]
  ∧ validate 2025 str_of_num year_coerced = Ok year_kept.
Proof. repeat split; vm_compute; reflexivity. Qed.

End WithEnvironment.

End ValidatorFacts.

Module LineFacts.
Import Json LineVocabulary.

Section WithJson.
Variable json_loads : string -> option json.
Variable json_dumps : json -> string.
Variable float_of_str : string -> option Q.











End WithJson.




End LineFacts.

Module DashboardFacts.
Import Dashboard Encoding.

Lemma insert_sorted_perm x l : insert_sorted x l ≡ₚ x :: l.
Proof.
  induction l as [|y l IH]; simpl; [done|].
  destruct (String.leb x y); [done|].
  rewrite IH. apply Permutation_swap.
Qed.

Lemma sorted_perm l : sorted l ≡ₚ l.
Proof.
  induction l as [|x l IH]; simpl; [done|].
  rewrite insert_sorted_perm. by f_equiv.
Qed.

Lemma elem_of_sorted k l : k ∈ sorted l ↔ k ∈ l.
Proof. by rewrite sorted_perm. Qed.

Lemma index_from_none l : ∀ n d k,
  fold_left put (imap (λ i x, (n + i, x)) l) d !! k = None ↔ d !! k = None ∧ k ∉ l.
Proof.
  induction l as [|x l IH]; intros n d k; simpl.
  - split; [intros H; split; [done|apply not_elem_of_nil]|tauto].
  - rewrite (imap_ext _ (λ i y, (S n + i, y))); last (intros; simpl; f_equal; lia).
    rewrite IH. unfold put at 1; simpl. rewrite not_elem_of_cons.
    rewrite lookup_insert_None. intuition auto.
Qed.

Lemma index_from_some l : ∀ n d k j,
  fold_left put (imap (λ i x, (n + i, x)) l) d !! k = Some j →
  (d !! k = Some j ∧ k ∉ l) ∨ (∃ i, j = n + i ∧ l !! i = Some k).
Proof.
  induction l as [|x l IH]; intros n d k j; simpl.
  - intros H. left. split; [done|apply not_elem_of_nil].
  - rewrite (imap_ext _ (λ i y, (S n + i, y))); last (intros; simpl; f_equal; lia).
    intros H. apply IH in H as [[H Hk]|(i & -> & Hi)].
    + unfold put in H; simpl in H. apply lookup_insert_Some in H as [[-> <-]|[Hne H]].
      * right. exists 0. split; [lia|done].
      * left. split; [done|]. rewrite not_elem_of_cons. done.
    + right. exists (S i). split; [lia|done].
Qed.

Lemma index_dict_unfold l : index_dict l = fold_left put (imap (λ i x, (0 + i, x)) l) ∅.
Proof. reflexivity. Qed.

Lemma index_dict_None l k : index_dict l !! k = None ↔ k ∉ l.
Proof. rewrite index_dict_unfold, index_from_none, lookup_empty. tauto. Qed.

Lemma index_dict_Some l k j : index_dict l !! k = Some j → l !! j = Some k.
Proof.
  rewrite index_dict_unfold. intros H.
  apply index_from_some in H as [[H _]|(i & -> & Hi)]; [by rewrite lookup_empty in H|done].
Qed.

Lemma index_dict_elem l k : k ∈ l → ∃ j, index_dict l !! k = Some j ∧ l !! j = Some k.
Proof.
  intros Hk. destruct (index_dict l !! k) as [j|] eqn:E.
  - exists j. split; [done|by apply index_dict_Some].
  - by apply index_dict_None in E.
Qed.

Lemma getitem_Some {V} (d : gmap string V) k v : d !! k = Some v → getitem d k = Ok v.
Proof. unfold getitem. by intros ->. Qed.

Lemma getitem_None {V} (d : gmap string V) k : d !! k = None → getitem d k = Raise KeyError.
Proof. unfold getitem. by intros ->. Qed.

Lemma maps_months : getitem price_category_maps "sold_in_month" = Ok (index_dict (sorted MONTHS)).
Proof. reflexivity. Qed.

Lemma maps_agents : getitem price_category_maps "agent_id" = Ok (index_dict (sorted AGENT_IDS)).
Proof. reflexivity. Qed.

Lemma len_months : len (index_dict (sorted MONTHS)) = 12.
Proof. vm_compute. reflexivity. Qed.

Lemma len_agents : len (index_dict (sorted AGENT_IDS)) = 24.
Proof. vm_compute. reflexivity. Qed.

Lemma length_sorted l : length (sorted l) = length l.
Proof. by rewrite sorted_perm. Qed.

Lemma setitem_ok n i :
  i < n → setitem (replicate n 0%Z) i 1%Z = Ok (<[i := 1%Z]> (replicate n 0%Z)).
Proof.
  intros Hi. unfold setitem. rewrite length_replicate.
  destruct (Nat.ltb_spec i n); [done|lia].
Qed.

Lemma one_hot_length n i : length (one_hot n i) = n.
Proof. unfold one_hot. by rewrite length_map, length_insert, length_replicate. Qed.

Lemma one_hot_lookup n i k : i < n → k < n →
  one_hot n i !! k = Some (if decide (k = i) then 1%R else 0%R).
Proof.
  intros Hi Hk. unfold one_hot. rewrite list_lookup_fmap.
  destruct (decide (k = i)) as [->|Hne].
  - rewrite list_lookup_insert_eq; [done|by rewrite length_replicate].
  - rewrite list_lookup_insert_ne; [|done]. by rewrite lookup_replicate_2.
Qed.

Lemma broadcast_3 op a b c x y z :
  broadcast op [a; b; c] [x; y; z] = Ok [op a x; op b y; op c z].
Proof. reflexivity. Qed.

Lemma encode_ok m0 m1 m2 s0 s1 s2 size es lw mo ag i j :
  index_dict (sorted MONTHS) !! mo = Some i →
  index_dict (sorted AGENT_IDS) !! ag = Some j →
  create_feature_vector [m0; m1; m2] [s0; s1; s2] size es lw mo ag
  = Ok ([((size - m0) / s0)%R; ((es - m1) / s1)%R; ((lw - m2) / s2)%R]
          ++ one_hot 12 i ++ one_hot 24 j).
Proof.
  intros Hi Hj.
  pose proof (index_dict_Some _ _ _ Hi) as Hi'. apply lookup_lt_Some in Hi'.
  pose proof (index_dict_Some _ _ _ Hj) as Hj'. apply lookup_lt_Some in Hj'.
  rewrite length_sorted in Hi', Hj'. change (length MONTHS) with 12 in Hi'.
  change (length AGENT_IDS) with 24 in Hj'.
  unfold create_feature_vector.
  rewrite broadcast_3; run. rewrite broadcast_3; run.
  rewrite maps_months; run. rewrite len_months.
  rewrite (getitem_Some _ _ _ Hi); run. rewrite setitem_ok by done; run.
  rewrite maps_agents; run. rewrite len_agents.
  rewrite (getitem_Some _ _ _ Hj); run. rewrite setitem_ok by done; run.
  reflexivity.
Qed.

Lemma encode_key_error mean std size es lw mo ag :
  length mean = 3 → length std = 3 →
  mo ∉ MONTHS ∨ ag ∉ AGENT_IDS →
  create_feature_vector mean std size es lw mo ag = Raise KeyError.
Proof.
  intros Hm Hs Hbad.
  destruct mean as [|m0 [|m1 [|m2 [|]]]]; try discriminate.
  destruct std as [|s0 [|s1 [|s2 [|]]]]; try discriminate.
  unfold create_feature_vector.
  rewrite broadcast_3; run. rewrite broadcast_3; run.
  rewrite maps_months; run. rewrite len_months.
  destruct (index_dict (sorted MONTHS) !! mo) as [i|] eqn:Hi.
  - rewrite (getitem_Some _ _ _ Hi); run.
    pose proof (index_dict_Some _ _ _ Hi) as Hi'.
    assert (mo ∈ MONTHS) as Hmo
      by (apply elem_of_sorted; eapply list_elem_of_lookup_2; exact Hi').
    apply lookup_lt_Some in Hi'. rewrite length_sorted in Hi'.
    change (length MONTHS) with 12 in Hi'.
    rewrite setitem_ok by done; run.
    rewrite maps_agents; run. rewrite len_agents.
    destruct Hbad as [Hbad|Hbad]; [done|].
    assert (index_dict (sorted AGENT_IDS) !! ag = None) as Hj
      by (apply index_dict_None; by rewrite elem_of_sorted).
    rewrite (getitem_None _ _ Hj); run. reflexivity.
  - rewrite (getitem_None _ _ Hi); run. reflexivity.
Qed.

Lemma one_hot_decode n i k : i < n → one_hot n i !! k = Some 1%R ↔ k = i.
Proof.
  intros Hi. split.
  - intros Hk. assert (k < n) as Hlt
      by (apply lookup_lt_Some in Hk; by rewrite one_hot_length in Hk).
    rewrite one_hot_lookup in Hk by done.
    destruct (decide (k = i)); [done|]. injection Hk as Hk. lra.
  - intros ->. rewrite one_hot_lookup by done. by rewrite decide_True.
Qed.


(** Claim C6.  With a scaler of three means and three deviations, a
    month outside the 12 month names or an agent outside the 24 agent
    identifiers makes the encoder raise [KeyError]: no vector is
    returned, and the prediction built on it raises the same error. *)
Theorem encoder_rejects_unknown_category mean std size es lw mo ag :
  length mean = 3 → length std = 3 →
  mo ∉ MONTHS ∨ ag ∉ AGENT_IDS →
  create_feature_vector mean std size es lw mo ag = Raise KeyError
  ∧ ∀ theta bias, predict_price_model mean std theta bias size es lw mo ag = Raise KeyError.
Proof.
  intros Hm Hs Hbad.
  pose proof (encode_key_error mean std size es lw mo ag Hm Hs Hbad) as H.
  split; [done|]. intros theta bias. unfold predict_price_model. by rewrite H.
Qed.






Lemma encoder_rejects_unknown_category_witness :
  length [0; 0; 0]%R = 3 ∧ length [1; 1; 1]%R = 3
  ∧ ("smarch" ∉ MONTHS ∨ "19a0b5650c4d43619cbaeeac9cc7a20a" ∉ AGENT_IDS)
  ∧ create_feature_vector [0; 0; 0]%R [1; 1; 1]%R 80 12 9
      "smarch" "19a0b5650c4d43619cbaeeac9cc7a20a" = Raise KeyError.
Proof.
  assert ("smarch" ∉ MONTHS) as Hmo by (apply (bool_decide_unpack _); vm_compute; exact I).
  split; [reflexivity|]. split; [reflexivity|]. split; [by left|].
  exact (proj1 (encoder_rejects_unknown_category [0; 0; 0]%R [1; 1; 1]%R 80 12 9
                  "smarch" "19a0b5650c4d43619cbaeeac9cc7a20a"
                  eq_refl eq_refl (or_introl Hmo))).
Defined.

End DashboardFacts.

(* ===================================================================== *)
(** * Further properties of the code *)
(* ===================================================================== *)

Module CleanTableFacts.
Import Pandas DataClean Shapes TableShapes PyStrFacts NormalizerFacts ValidatorFacts.

(** ** Rows and columns under the table operations *)

Lemma columns_take_rows mask df : columns (take_rows mask df) = columns df.
Proof. unfold columns, take_rows. rewrite map_map. by apply map_ext. Qed.

Lemma length_select mask vs : length (select mask vs) <= length vs.
Proof.
  revert vs. induction mask as [|b mask IH]; intros [|v vs]; cbn [select length]; try lia.
  destruct b; cbn [length]; specialize (IH vs); lia.
Qed.

Lemma nrows_take_rows mask df : nrows (take_rows mask df) <= nrows df.
Proof. destruct df as [|c df]; cbn; [lia|apply length_select]. Qed.

Lemma get_col_take_rows name mask df :
  get_col name (take_rows mask df)
  = option_map (fun s => mkSeries (dt s) (select mask (values s))) (get_col name df).
Proof.
  induction df as [|[n s] df IH]; [done|].
  cbn [take_rows map get_col fst snd]. destruct (String.eqb n name); [done|apply IH].
Qed.

Lemma Forall_select (P : value -> Prop) mask vs : Forall P vs -> Forall P (select mask vs).
Proof.
  intros H. revert mask. induction H as [|v vs Hv _ IH]; intros [|b mask]; cbn [select];
    try constructor.
  destruct b; [constructor; [done|apply IH]|apply IH].
Qed.


Lemma column_all_take_rows P name mask df :
  column_all P name df -> column_all P name (take_rows mask df).
Proof.
  intros H s. rewrite get_col_take_rows.
  destruct (get_col name df) as [s0|] eqn:E; [|done].
  intros [= <-]. cbn [values]. apply Forall_select. by apply H.
Qed.

Lemma column_all_filter_col P name col p df :
  column_all P name df -> column_all P name (filter_col col p df).
Proof.
  unfold filter_col. destruct (get_col col df); [apply column_all_take_rows|done].
Qed.


Lemma column_all_filter_remodeled cy P name df :
  column_all P name df -> column_all P name (filter_remodeled cy df).
Proof.
  unfold filter_remodeled.
  destruct (get_col "remodeled" df); [|done].
  destruct (get_col "year" df); [apply column_all_take_rows|done].
Qed.

Lemma columns_assign col f df : columns (assign col f df) = columns df.
Proof.
  unfold columns, assign. rewrite map_map. apply map_ext.
  intros [n s]. cbn [fst]. by destruct (String.eqb n col).
Qed.


(** ** The cast loop *)


Lemma astype_int_length s s' : astype_int s = Ok s' -> length (values s') = length (values s).
Proof.
  unfold astype_int.
  destruct (existsb isna (values s)); [done|].
  destruct (existsb (fun v => match v with VStr _ => true | _ => false end) (values s));
    [done|].
  intros [= <-]. cbn [values]. apply length_map.
Qed.


Lemma cast_fold_ok_inv cols c df df' :
  fold_left (fun acc col => d ← acc; cast_column col d) (c :: cols) (Ok df) = Ok df' ->
  exists df1, cast_column c df = Ok df1
              /\ fold_left (fun acc col => d ← acc; cast_column col d) cols (Ok df1) = Ok df'.
Proof.
  cbn [fold_left mbind result_bind].
  destruct (cast_column c df) as [df1|e]; [by exists df1|].
  by rewrite cast_fold_raise.
Qed.



Lemma cast_column_shape col df df' :
  cast_column col df = Ok df' -> columns df' = columns df /\ nrows df' = nrows df.
Proof.
  unfold cast_column. destruct (get_col col df) as [s|] eqn:Hget; [|by intros [= <-]].
  destruct (astype_int s) as [s'|e] eqn:Hcast; cbn; [|done].
  intros [= <-]. split; [apply columns_assign|].
  destruct df as [|[n s0] df]; [done|]. cbn [assign map nrows fst snd].
  cbn [get_col] in Hget. destruct (String.eqb n col); cbn [snd]; [|done].
  injection Hget as ->. by apply astype_int_length.
Qed.

Lemma cast_fold_shape cols : forall df df',
  fold_left (fun acc col => d ← acc; cast_column col d) cols (Ok df) = Ok df' ->
  columns df' = columns df /\ nrows df' = nrows df.
Proof.
  induction cols as [|c cols IH]; intros df df'; [by intros [= <-]|].
  intros H. apply cast_fold_ok_inv in H as (df1 & Hc & Hrest).
  destruct (IH _ _ Hrest) as [-> ->]. by apply (cast_column_shape c).
Qed.






Section WithYear.
Variable CURRENT_YEAR : Q.
Variable str_of_num : Q -> string.

Lemma column_all_range_filters P name df :
  column_all P name df -> column_all P name (range_filters CURRENT_YEAR df).
Proof.
  intros H. unfold range_filters, filter_kitchens, filter_bathrooms, filter_days_on_marked,
    filter_sun_factor, filter_year, filter_size, filter_price.
  repeat first [apply column_all_filter_col | apply column_all_filter_remodeled]. exact H.
Qed.

Lemma validate_inv df df' :
  validate CURRENT_YEAR str_of_num df = Ok df' ->
  exists d, cast_integers (range_filters CURRENT_YEAR d) = Ok df'
            /\ columns d = columns df /\ nrows d <= nrows df.
Proof.
  unfold validate.
  set (d1 := drop_missing_required df). set (d2 := drop_duplicates d1).
  assert (columns d2 = columns df /\ nrows d2 <= nrows df) as [Hc2 Hn2].
  { assert (columns d1 = columns df /\ nrows d1 <= nrows df) as [Hc1 Hn1].
    { unfold d1, drop_missing_required. destruct (List.filter _ _); [done|].
      unfold dropna. split; [apply columns_take_rows|apply nrows_take_rows]. }
    unfold d2, drop_duplicates. rewrite columns_take_rows.
    split; [done|]. etrans; [apply nrows_take_rows|done]. }
  clearbody d2. clear d1.
  destruct (drop_sold_no_with_month str_of_num d2) as [d3|e] eqn:H3; cbn; [|done].
  assert (columns d3 = columns df /\ nrows d3 <= nrows df) as [Hc3 Hn3].
  { unfold drop_sold_no_with_month in H3.
    destruct (get_col "sold" d2) as [sold|]; [|by injection H3 as <-].
    destruct (get_col "sold_in_month" d2) as [month|]; [|by injection H3 as <-].
    destruct (str_accessor sold); cbn in H3; [|done]. injection H3 as <-.
    rewrite columns_take_rows. split; [done|]. etrans; [apply nrows_take_rows|done]. }
  destruct (drop_sold_yes_without_month str_of_num d3) as [d4|e] eqn:H4; cbn; [|done].
  assert (columns d4 = columns df /\ nrows d4 <= nrows df) as [Hc4 Hn4].
  { unfold drop_sold_yes_without_month in H4.
    destruct (get_col "sold" d3) as [sold|]; [|by injection H4 as <-].
    destruct (get_col "sold_in_month" d3) as [month|]; [|by injection H4 as <-].
    destruct (str_accessor sold); cbn in H4; [|done]. injection H4 as <-.
    rewrite columns_take_rows. split; [done|]. etrans; [apply nrows_take_rows|done]. }
  intros Hcast. by exists d4.
Qed.

Lemma range_filters_shape df :
  columns (range_filters CURRENT_YEAR df) = columns df
  /\ nrows (range_filters CURRENT_YEAR df) <= nrows df.
Proof.
  assert (forall col p d, columns (filter_col col p d) = columns d
                          /\ nrows (filter_col col p d) <= nrows d) as Hf.
  { intros col p d. unfold filter_col. destruct (get_col col d); [|done].
    split; [apply columns_take_rows|apply nrows_take_rows]. }
  assert (forall d, columns (filter_remodeled CURRENT_YEAR d) = columns d
                    /\ nrows (filter_remodeled CURRENT_YEAR d) <= nrows d) as Hr.
  { intros d. unfold filter_remodeled. destruct (get_col "remodeled" d); [|done].
    destruct (get_col "year" d); [|done].
    split; [apply columns_take_rows|apply nrows_take_rows]. }
  unfold range_filters, filter_kitchens, filter_bathrooms, filter_days_on_marked,
    filter_sun_factor, filter_year, filter_size, filter_price.
  repeat match goal with
         | |- context [filter_col ?c ?p ?d] =>
             destruct (Hf c p d) as [-> ?]; generalize dependent (filter_col c p d); intros
         | |- context [filter_remodeled _ ?d] =>
             destruct (Hr d) as [-> ?]; generalize dependent (filter_remodeled CURRENT_YEAR d);
             intros
         end.
  split; [done|lia].
Qed.


End WithYear.

Section WithEnvironment.
Variable str_of_num : Q -> string.
Variable num_of_str : string -> option Q.

Lemma values_replace_series s :
  values (replace_series s)
  = match dt s with
    | Object => map replace_value (values s)
    | Numeric => values s
    end.
Proof.
  unfold replace_series. destruct (dt s); [|done].
  destruct (map replace_value (values s)) eqn:E; [done|]. by destruct (existsb _ _).
Qed.

Lemma column_pass_height O c :
  length (values (snd (column_pass str_of_num num_of_str O c))) = length (values (snd c)).
Proof.
  assert (forall s, length (values (replace_series s)) = length (values s)) as Hrep.
  { intros s. rewrite values_replace_series. destruct (dt s); [apply length_map|done]. }
  unfold column_pass, on_cols. generalize NUMERIC_COLUMNS. intros N.
  destruct c as [n s]; cbn [fst snd].
  destruct (existsb (String.eqb n) O); cbn [fst snd];
    destruct (existsb (String.eqb n) N); cbn [fst snd to_numeric values];
    rewrite ?length_map, ?Hrep; cbn [strip_series values]; by rewrite ?length_map.
Qed.

(** The Normalizer and Coercer never drop a record or a column: the
    result has the lower-cased labels of the input (with [sold_in_moth]
    repaired when there is no [sold_in_month]) and columns of the same
    heights, and never a [sold_in_moth] without a [sold_in_month]. *)
Theorem normalize_coerce_shape df :
  columns (normalize_coerce str_of_num num_of_str df)
  = columns (fix_typo (lowercase_columns df))
  /\ heights (normalize_coerce str_of_num num_of_str df) = heights df
  /\ typo_pending (normalize_coerce str_of_num num_of_str df) = false.
Proof.
  unfold normalize_coerce. rewrite columnwise.
  set (d := fix_typo (lowercase_columns df)).
  split; [|split].
  - apply columns_map, column_pass_name.
  - unfold heights. rewrite map_map.
    rewrite (map_ext _ (fun c => length (values (snd c))))
      by (intros c; apply column_pass_height).
    unfold d, fix_typo, rename, lowercase_columns.
    destruct (_ && _); rewrite !map_map; apply map_ext; intros [n s]; cbn [fst snd];
      [by destruct (String.eqb _ _)|done].
  - unfold typo_pending. rewrite !has_col_map by apply column_pass_name.
    apply (names_normal df).
Qed.

Lemma clean_cell_tidy v : tidy_text_cell (clean_cell str_of_num v).
Proof.
  unfold clean_cell, replace_value.
  destruct (is_placeholder (PyStr.strip (astype_str str_of_num v))) eqn:E; [by left|].
  right. eexists. split; [done|]. split; [done|apply strip_idem].
Qed.

(** After the Normalizer and Coercer, every column named in
    [NUMERIC_COLUMNS] is numeric and holds floats and NaN only, and
    every text column holds NaN or stripped strings that are none of
    the placeholders ([""], ["unknown"], ["None"], ["nan"]). *)
Theorem normalize_coerce_cells df c :
  In c (normalize_coerce str_of_num num_of_str df) ->
  (existsb (String.eqb (fst c)) NUMERIC_COLUMNS = true ->
     dt (snd c) = Numeric /\ forallb float_cell (values (snd c)) = true)
  /\ (dt (snd c) = Object -> Forall tidy_text_cell (values (snd c))).
Proof.
  unfold normalize_coerce. rewrite columnwise.
  set (d := fix_typo (lowercase_columns df)).
  intros Hc. apply List.in_map_iff in Hc as (c0 & <- & Hc0).
  pose proof (numeric_unless_object d c0 Hc0) as Hnum.
  rewrite column_pass_name.
  unfold column_pass, on_cols. generalize NUMERIC_COLUMNS. intros N.
  destruct c0 as [n s]; cbn [fst snd] in *.
  destruct (existsb (String.eqb n) (object_columns d)) eqn:EO; cbn [fst snd];
    destruct (existsb (String.eqb n) N) eqn:EN; cbn [fst snd]; rewrite ?EN.
  - split; [intros _|done]. split; [done|]. cbn [to_numeric values].
    apply List.forallb_forall. intros v Hv. apply List.in_map_iff in Hv as (v0 & <- & _).
    destruct v0 as [| |q|t]; cbn; try done. by destruct (num_of_str t).
  - split; [done|]. intros _. rewrite replace_strip. cbn [values].
    apply List.Forall_forall. intros v Hv. apply List.in_map_iff in Hv as (v0 & <- & _).
    apply clean_cell_tidy.
  - split; [intros _|done]. split; [done|]. cbn [to_numeric values].
    apply List.forallb_forall. intros v Hv. apply List.in_map_iff in Hv as (v0 & <- & _).
    destruct v0 as [| |q|t]; cbn; try done. by destruct (num_of_str t).
  - split; [done|]. rewrite (replace_numeric s) by auto. rewrite Hnum by done. done.
Qed.

End WithEnvironment.

Section WithAll.
Variable CURRENT_YEAR : Q.
Variable str_of_num : Q -> string.
Variable num_of_str : string -> option Q.

(** [clean_data] never adds, removes or reorders a column, and never
    adds a row: the labels of its result are the lower-cased labels of
    the input, with the misspelt [sold_in_moth] repaired. *)
Theorem clean_data_shape df df' :
  clean_data CURRENT_YEAR str_of_num num_of_str df = Ok df' ->
  columns df' = columns (fix_typo (lowercase_columns df)) /\ nrows df' <= nrows df.
Proof.
  unfold clean_data. intros H.
  apply (validate_inv CURRENT_YEAR str_of_num) in H as (d & Hcast & Hcols & Hrows).
  apply cast_fold_shape in Hcast as [-> ->].
  destruct (range_filters_shape CURRENT_YEAR d) as [-> Hle].
  destruct (normalize_coerce_shape str_of_num num_of_str df) as (Hc & Hh & _).
  rewrite Hcols, Hc. split; [done|].
  assert (nrows (normalize_coerce str_of_num num_of_str df) = nrows df) as Hn.
  { revert Hh. unfold heights, nrows.
    destruct (normalize_coerce str_of_num num_of_str df), df; cbn; congruence. }
  lia.
Qed.

End WithAll.

(** ** The cast loop on a coerced table *)




Lemma clean_data_shape_witness :
  clean_data 2025 (fun _ => "") (fun _ => None) Examples.sold_raw = Ok Examples.sold_kept
  /\ nrows Examples.sold_kept <= nrows Examples.sold_raw.
Proof.
  split; [reflexivity|].
  exact (proj2 (clean_data_shape 2025 (fun _ => "") (fun _ => None)
                  Examples.sold_raw Examples.sold_kept eq_refl)).
Defined.

Lemma normalize_coerce_cells_witness :
  In ("lot_w", Examples.numeric [VNaN])
     (normalize_coerce (fun _ => "") (fun _ => None) Examples.lot_raw)
  /\ dt (Examples.numeric [VNaN]) = Numeric.
Proof.
  assert (In ("lot_w", Examples.numeric [VNaN])
             (normalize_coerce (fun _ => "") (fun _ => None) Examples.lot_raw)) as Hin
    by (vm_compute; tauto).
  split; [exact Hin|].
  exact (proj1 (proj1 (normalize_coerce_cells (fun _ => "") (fun _ => None) Examples.lot_raw
                         ("lot_w", Examples.numeric [VNaN]) Hin) eq_refl)).
Defined.


End CleanTableFacts.

Module CleanFileFacts.
Import Json LineVocabulary LineCounts.

Lemma dict_get_set_eq key v fields : dict_get key (dict_set key v fields) = Some v.
Proof.
  induction fields as [|[k w] fields IH]; cbn [dict_set dict_get].
  - by rewrite String.eqb_refl.
  - destruct (String.eqb k key) eqn:E; cbn [dict_get]; by rewrite E.
Qed.

Lemma dict_get_set_ne key key' v fields :
  key <> key' -> dict_get key' (dict_set key v fields) = dict_get key' fields.
Proof.
  intros Hne. induction fields as [|[k w] fields IH]; cbn [dict_set dict_get].
  - apply String.eqb_neq in Hne. by rewrite Hne.
  - destruct (String.eqb_spec k key) as [->|Hk]; cbn [dict_get].
    + apply String.eqb_neq in Hne. by rewrite Hne.
    + destruct (String.eqb k key'); [done|apply IH].
Qed.

Section WithJson.
Variable json_loads : string -> option json.
Variable json_dumps : json -> string.

(** The four ways one iteration of [clean_file] can end well. *)
Lemma clean_step_cases st raw st' :
  CleanHouses.step json_loads json_dumps st raw = Ok st' ->
  (nonblank raw = false /\ st' = st)
  \/ (malformed json_loads raw = true /\ st' = counted st)
  \/ (nonblank raw = true /\ malformed json_loads raw = false
      /\ CleanHouses.total st' = S (CleanHouses.total st)
      /\ CleanHouses.outf st' = CleanHouses.outf st
      /\ CleanHouses.rooms_fixed st' = CleanHouses.rooms_fixed st
      /\ CleanHouses.removed_sold_no st' + CleanHouses.removed_missing_year st'
         = S (CleanHouses.removed_sold_no st + CleanHouses.removed_missing_year st))
  \/ (nonblank raw = true /\ malformed json_loads raw = false
      /\ CleanHouses.total st' = S (CleanHouses.total st)
      /\ CleanHouses.removed_sold_no st' = CleanHouses.removed_sold_no st
      /\ CleanHouses.removed_missing_year st' = CleanHouses.removed_missing_year st
      /\ CleanHouses.rooms_fixed st' <= S (CleanHouses.rooms_fixed st)
      /\ CleanHouses.rooms_fixed st <= CleanHouses.rooms_fixed st'
      /\ exists line, clean_record_line json_dumps line
                      /\ CleanHouses.outf st' = CleanHouses.outf st ++ [line]).
Proof.
  unfold CleanHouses.step, malformed, nonblank.
  destruct (String.eqb (PyStr.strip raw) ""); cbn [negb andb].
  { intros [= <-]. by left. }
  destruct (json_loads (PyStr.strip raw)) as [rec|].
  2:{ intros [= <-]. right. by left. }
  destruct rec as [| | | | |fields]; cbn; try discriminate.
  destruct (CleanHouses.sold_is_no _) eqn:Hsold.
  { intros [= <-]. right. right. left. cbn. repeat split; lia. }
  destruct (CleanHouses.year_missing fields) eqn:Hyear.
  { intros [= <-]. right. right. left. cbn. repeat split; lia. }
  destruct (is_empty_str (default JNull (dict_get "rooms" fields))) eqn:Hrooms.
  - intros [= <-]. right. right. right. cbn. repeat split; try lia.
    eexists. split; [|reflexivity].
    exists (dict_set "rooms" (JStr "0 rooms") fields). split; [done|].
    unfold CleanHouses.year_missing in *.
    rewrite dict_get_set_ne by done. rewrite dict_get_set_ne by done.
    rewrite dict_get_set_eq. done.
  - intros [= <-]. right. right. right. cbn. repeat split; try lia.
    eexists. split; [|reflexivity]. by exists fields.
Qed.

Lemma clean_loop_accounts inf : forall st st',
  CleanHouses.loop json_loads json_dumps st inf = Ok st' ->
  CleanHouses.total st' = CleanHouses.total st + count nonblank inf
  /\ CleanHouses.total st'
     + (CleanHouses.removed_sold_no st + CleanHouses.removed_missing_year st
        + length (CleanHouses.outf st))
     = CleanHouses.total st + count (malformed json_loads) inf
       + (CleanHouses.removed_sold_no st' + CleanHouses.removed_missing_year st'
          + length (CleanHouses.outf st'))
  /\ CleanHouses.rooms_fixed st' + length (CleanHouses.outf st)
     <= CleanHouses.rooms_fixed st + length (CleanHouses.outf st')
  /\ (Forall (clean_record_line json_dumps) (CleanHouses.outf st) ->
      Forall (clean_record_line json_dumps) (CleanHouses.outf st')).
Proof.
  induction inf as [|raw inf IH]; intros st st'; cbn [CleanHouses.loop].
  - intros [= <-]. unfold count; cbn. repeat split; try lia. done.
  - destruct (CleanHouses.step json_loads json_dumps st raw) as [st1|e] eqn:Hstep; cbn;
      [|discriminate].
    intros Hloop. destruct (IH _ _ Hloop) as (Ht & Hacc & Hfix & Hout). clear IH Hloop.
    unfold count in *. cbn [List.filter].
    apply clean_step_cases in Hstep
      as [[Hnb ->]|[[Hbad ->]|[(Hnb & Hbad & H1 & H2 & H3 & H4)
                              |(Hnb & Hbad & H1 & H2 & H3 & H4 & H5 & line & Hline & H6)]]].
    + assert (malformed json_loads raw = false) as ->
        by (unfold malformed; by rewrite Hnb).
      rewrite Hnb. done.
    + assert (nonblank raw = true) as ->
        by (unfold malformed in Hbad; by destruct (nonblank raw)).
      rewrite Hbad. cbn [length] in *. cbn in Ht, Hacc, Hfix, Hout.
      repeat split; try lia. done.
    + rewrite Hnb, Hbad. cbn [length]. rewrite H2 in *.
      repeat split; try lia. done.
    + rewrite Hnb, Hbad. cbn [length]. rewrite H6, length_app in *. cbn [length] in *.
      repeat split; try lia.
      intros Hall. apply Hout. apply Forall_app. split; [done|]. by constructor.
Qed.

(** The counters of [clean_file] add up: every non-blank line is counted
    once, and is accounted for as removed, written or malformed.  The
    ['kept'] figure therefore counts the malformed lines as kept. *)
Theorem clean_file_accounts inf st :
  CleanHouses.clean_file json_loads json_dumps inf = Ok st ->
  CleanHouses.total st = count nonblank inf
  /\ CleanHouses.total st
     = CleanHouses.removed_sold_no st + CleanHouses.removed_missing_year st
       + length (CleanHouses.outf st) + count (malformed json_loads) inf
  /\ CleanHouses.kept st = length (CleanHouses.outf st) + count (malformed json_loads) inf
  /\ CleanHouses.rooms_fixed st <= length (CleanHouses.outf st).
Proof.
  intros H. apply clean_loop_accounts in H as (Ht & Hacc & Hfix & _).
  cbn in Ht, Hacc, Hfix. unfold CleanHouses.kept. repeat split; lia.
Qed.

(** Every line [clean_file] writes is the dump of a record that has a
    year, is not marked as not sold, and whose rooms are not the empty
    string. *)
Theorem clean_file_writes_clean_records inf st :
  CleanHouses.clean_file json_loads json_dumps inf = Ok st ->
  Forall (clean_record_line json_dumps) (CleanHouses.outf st).
Proof.
  intros H. apply clean_loop_accounts in H as (_ & _ & _ & Hout).
  apply Hout. constructor.
Qed.


End WithJson.

Lemma clean_file_accounts_witness :
  CleanHouses.clean_file sample_loads sample_dumps
    [ "{}" +:+ newline; newline; "oops" +:+ newline ]
  = Ok (CleanHouses.mkState 2 0 1 0 [])
  /\ CleanHouses.kept (CleanHouses.mkState 2 0 1 0 []) = 0 + 1.
Proof.
  split; [reflexivity|].
  exact (proj1 (proj2 (proj2 (clean_file_accounts sample_loads sample_dumps
           [ "{}" +:+ newline; newline; "oops" +:+ newline ]
           (CleanHouses.mkState 2 0 1 0 []) eq_refl)))).
Defined.

Lemma clean_file_writes_clean_records_witness :
  CleanHouses.clean_file sample_loads_record sample_dumps
    [ "house" +:+ newline; "oops" +:+ newline ]
  = Ok (CleanHouses.mkState 2 0 0 1 [ "{}" +:+ newline ])
  /\ Forall (clean_record_line sample_dumps) [ "{}" +:+ newline ].
Proof.
  split; [reflexivity|].
  exact (clean_file_writes_clean_records sample_loads_record sample_dumps
           [ "house" +:+ newline; "oops" +:+ newline ]
           (CleanHouses.mkState 2 0 0 1 [ "{}" +:+ newline ]) eq_refl).
Defined.

End CleanFileFacts.

Module OutlierPassFacts.
Import Json Shapes LineVocabulary LineCounts PyStrFacts.

Lemma rstrip_newline s : PyStr.rstrip (s +:+ newline) = PyStr.rstrip s.
Proof.
  induction s as [|c s IH]; [reflexivity|].
  simpl. simpl in IH. by rewrite IH.
Qed.

Lemma strip_fixed_clean t : PyStr.strip t = t -> starts_clean t.
Proof. intros <-. apply rstrip_clean, lstrip_clean. Qed.

(** A stripped, non-empty text followed by a newline strips back to the
    text. *)
Lemma strip_line t : PyStr.strip t = t -> t <> "" -> PyStr.strip (t +:+ newline) = t.
Proof.
  intros Hfix Hne. pose proof (strip_fixed_clean t Hfix) as Hclean.
  unfold PyStr.strip in *. rewrite (lstrip_fixed t Hclean) in Hfix.
  rewrite lstrip_fixed.
  - by rewrite rstrip_newline.
  - destruct t; [done|exact Hclean].
Qed.

Section WithJson.
Variable json_loads : string -> option json.
Variable json_dumps : json -> string.
Variable float_of_str : string -> option Q.

(** The ways one iteration of the outlier pass can end well. *)
Lemma dom_step_cases st line st' :
  DomOutliers.step json_loads json_dumps float_of_str st line = Ok st' ->
  (nonblank line = false /\ st' = st)
  \/ (malformed json_loads line = true /\ st' = passed st (PyStr.strip line))
  \/ (outlier_record json_loads float_of_str line = true
      /\ st' = DomOutliers.mkCounters (S (DomOutliers.total st))
                 (S (DomOutliers.removed st)) (DomOutliers.dst st))
  \/ (exists fields,
        nonblank line = true
        /\ json_loads (PyStr.strip line) = Some (JObj fields)
        /\ outlier_record json_loads float_of_str line = false
        /\ st' = passed st (json_dumps (JObj fields))).
Proof.
  unfold DomOutliers.step, malformed, outlier_record, nonblank.
  destruct (String.eqb (PyStr.strip line) ""); cbn [negb andb].
  { intros [= <-]. by left. }
  destruct (json_loads (PyStr.strip line)) as [[| | | | |fields]|]; cbn; try discriminate.
  - destruct (DomOutliers.is_days_equal_100 _ _) eqn:E; intros [= <-].
    + right. right. by left.
    + right. right. right. by exists fields.
  - intros [= <-]. right. by left.
Qed.

Lemma dom_loop_accounts src : forall st st' e,
  DomOutliers.loop json_loads json_dumps float_of_str st src = (st', e) ->
  DomOutliers.total st' + (DomOutliers.removed st + length (DomOutliers.dst st))
  = DomOutliers.total st + (DomOutliers.removed st' + length (DomOutliers.dst st'))
  /\ DomOutliers.total st' <= DomOutliers.total st + count nonblank src
  /\ (e = None ->
      DomOutliers.total st' = DomOutliers.total st + count nonblank src
      /\ DomOutliers.removed st'
         = DomOutliers.removed st + count (outlier_record json_loads float_of_str) src).
Proof.
  induction src as [|line src IH]; intros st st' e; cbn [DomOutliers.loop].
  - intros [= <- <-]. unfold count; cbn. repeat split; lia.
  - unfold count in *. cbn [List.filter].
    destruct (DomOutliers.step json_loads json_dumps float_of_str st line)
      as [st1|e1] eqn:Hstep.
    2:{ intros [= <- <-]. repeat split; try lia; done. }
    intros Hloop. destruct (IH _ _ _ Hloop) as (Hacc & Hle & Hfin). clear IH Hloop.
    apply dom_step_cases in Hstep
      as [[Hnb ->]|[[Hbad ->]|[[Hout ->]|(fields & Hnb & Hload & Hout & ->)]]].
    + assert (outlier_record json_loads float_of_str line = false) as ->
        by (unfold outlier_record; fold (nonblank line); by rewrite Hnb).
      rewrite Hnb. done.
    + assert (nonblank line = true) as Hnb
        by (unfold malformed in Hbad; by destruct (nonblank line)).
      assert (outlier_record json_loads float_of_str line = false) as ->.
      { unfold outlier_record, malformed in *. fold (nonblank line) in *.
        rewrite Hnb in *. cbn [andb] in *.
        by destruct (json_loads (PyStr.strip line)). }
      rewrite Hnb. cbn [length] in *.
      unfold passed in *. cbn in Hacc, Hle, Hfin. rewrite length_app in Hacc. cbn in Hacc.
      split; [lia|]. split; [lia|]. intros He. specialize (Hfin He). lia.
    + assert (nonblank line = true) as Hnb
        by (unfold outlier_record in Hout; fold (nonblank line) in Hout;
            by destruct (nonblank line)).
      rewrite Hnb, Hout. cbn [length] in *. cbn in Hacc, Hle, Hfin.
      split; [lia|]. split; [lia|]. intros He. specialize (Hfin He). lia.
    + rewrite Hnb, Hout. cbn [length] in *.
      unfold passed in *. cbn in Hacc, Hle, Hfin. rewrite length_app in Hacc. cbn in Hacc.
      split; [lia|]. split; [lia|]. intros He. specialize (Hfin He). lia.
Qed.

(** When the outlier pass finishes, its two counters and its output
    agree: every non-blank line was counted once, the records with
    [days_on_marked] equal to 100 were removed, and all other counted
    lines, the malformed ones included, were written. *)
Theorem outlier_pass_accounts src st :
  DomOutliers.loop json_loads json_dumps float_of_str (DomOutliers.mkCounters 0 0 []) src
  = (st, None) ->
  DomOutliers.total st = count nonblank src
  /\ DomOutliers.removed st = count (outlier_record json_loads float_of_str) src
  /\ DomOutliers.total st - DomOutliers.removed st = length (DomOutliers.dst st).
Proof.
  intros H. apply dom_loop_accounts in H as (Hacc & _ & Hfin).
  destruct (Hfin eq_refl) as [Ht Hr]. cbn in Hacc, Ht, Hr. repeat split; lia.
Qed.

Lemma dom_loop_stops before : forall st st1 line e after,
  DomOutliers.loop json_loads json_dumps float_of_str st before = (st1, None) ->
  DomOutliers.step json_loads json_dumps float_of_str st1 line = Raise e ->
  DomOutliers.loop json_loads json_dumps float_of_str st (before ++ line :: after)
  = (st1, Some e).
Proof.
  induction before as [|l before IH]; intros st st1 line e after; cbn [app DomOutliers.loop].
  - intros [= ->] ->. done.
  - destruct (DomOutliers.step json_loads json_dumps float_of_str st l) as [st2|e2];
      [apply IH|done].
Qed.

(** A line that parses to something other than a JSON object ends
    [main] with an uncaught [AttributeError]: the source keeps its
    content, and the temporary file is left behind with the lines
    written before that line. *)
Theorem outlier_pass_crash_leaves_temp before line after st1 tmp :
  DomOutliers.loop json_loads json_dumps float_of_str (DomOutliers.mkCounters 0 0 []) before
  = (st1, None) ->
  not_a_record json_loads line = true ->
  DomOutliers.main json_loads json_dumps float_of_str
    (DomOutliers.mkFS (Some (before ++ line :: after)) tmp)
  = (DomOutliers.mkFS (Some (before ++ line :: after)) (Some (DomOutliers.dst st1)),
     DomOutliers.Uncaught AttributeError).
Proof.
  intros Hbefore Hbad. unfold DomOutliers.main. cbn [DomOutliers.source].
  rewrite (dom_loop_stops before _ st1 line AttributeError after Hbefore); [done|].
  unfold not_a_record, nonblank in Hbad. unfold DomOutliers.step.
  destruct (String.eqb (PyStr.strip line) ""); cbn [negb andb] in Hbad; [done|].
  by destruct (json_loads (PyStr.strip line)) as [[| | | | |fields]|].
Qed.

Lemma dom_loop_copies src : forall st,
  Forall (copied_as_is json_loads json_dumps float_of_str) src ->
  DomOutliers.loop json_loads json_dumps float_of_str st src
  = (DomOutliers.mkCounters (DomOutliers.total st + length src) (DomOutliers.removed st)
       (DomOutliers.dst st ++ src), None).
Proof.
  induction src as [|line src IH]; intros st Hall; cbn [DomOutliers.loop].
  - destruct st. cbn. by rewrite Nat.add_0_r, app_nil_r.
  - apply Forall_cons in Hall as [Hline Hall]. rewrite Hline, (IH _ Hall). cbn.
    f_equal. f_equal; [lia|]. by rewrite <- app_assoc.
Qed.

Section RoundTrip.
(** [json.loads] rejects the empty text, and reads back what
    [json.dumps] prints of a value it has read. *)
Hypothesis loads_empty : json_loads "" = None.
Hypothesis loads_dumps : forall text obj,
  json_loads text = Some obj ->
  json_loads (PyStr.strip (json_dumps obj +:+ newline)) = Some obj.

Lemma dumped_copied_as_is line fields :
  json_loads (PyStr.strip line) = Some (JObj fields) ->
  outlier_record json_loads float_of_str line = false ->
  nonblank line = true ->
  copied_as_is json_loads json_dumps float_of_str (json_dumps (JObj fields) +:+ newline).
Proof.
  intros Hload Hout Hnb st. unfold DomOutliers.step.
  pose proof (loads_dumps _ _ Hload) as Hback.
  destruct (String.eqb_spec (PyStr.strip (json_dumps (JObj fields) +:+ newline)) "")
    as [Hblank|_].
  { rewrite Hblank, loads_empty in Hback. discriminate. }
  rewrite Hback. cbn.
  unfold outlier_record in Hout. fold (nonblank line) in Hout.
  rewrite Hnb, Hload in Hout. cbn in Hout. by rewrite Hout.
Qed.

Lemma malformed_copied_as_is line :
  malformed json_loads line = true ->
  copied_as_is json_loads json_dumps float_of_str (PyStr.strip line +:+ newline).
Proof.
  unfold malformed, nonblank. intros Hbad st. unfold DomOutliers.step.
  destruct (String.eqb_spec (PyStr.strip line) "") as [|Hne]; [done|].
  cbn [negb andb] in Hbad.
  rewrite (strip_line (PyStr.strip line) (strip_idem line) Hne).
  apply String.eqb_neq in Hne. rewrite Hne.
  by destruct (json_loads (PyStr.strip line)).
Qed.

Lemma dom_loop_output_settled src : forall st st',
  DomOutliers.loop json_loads json_dumps float_of_str st src = (st', None) ->
  Forall (copied_as_is json_loads json_dumps float_of_str) (DomOutliers.dst st) ->
  Forall (copied_as_is json_loads json_dumps float_of_str) (DomOutliers.dst st').
Proof.
  induction src as [|line src IH]; intros st st'; cbn [DomOutliers.loop].
  - by intros [= <-].
  - destruct (DomOutliers.step json_loads json_dumps float_of_str st line)
      as [st1|e1] eqn:Hstep; [|done].
    intros Hloop Hall. apply (IH _ _ Hloop). clear IH Hloop.
    apply dom_step_cases in Hstep
      as [[Hnb ->]|[[Hbad ->]|[[Hout ->]|(fields & Hnb & Hload & Hout & ->)]]];
      try done; cbn [passed DomOutliers.dst]; apply Forall_app; (split; [done|]);
      constructor; try done.
    + by apply malformed_copied_as_is.
    + by eapply dumped_copied_as_is.
Qed.

(** The outlier pass is idempotent: after a run that finished, a second
    run removes nothing and leaves both files as the first run left
    them. *)
Theorem outlier_pass_idempotent fs fs1 :
  DomOutliers.main json_loads json_dumps float_of_str fs = (fs1, DomOutliers.Finished) ->
  DomOutliers.main json_loads json_dumps float_of_str fs1 = (fs1, DomOutliers.Finished).
Proof.
  unfold DomOutliers.main at 1. destruct fs as [[src|] tmp]; cbn [DomOutliers.source]; [|done].
  destruct (DomOutliers.loop _ _ _ _ src) as [st [e|]] eqn:Hloop; [done|].
  destruct (Nat.ltb_spec 0 (DomOutliers.removed st)) as [Hpos|Hzero]; intros [= <-].
  - pose proof (dom_loop_output_settled _ _ _ Hloop (List.Forall_nil _)) as Hall.
    unfold DomOutliers.main. cbn [DomOutliers.source].
    rewrite (dom_loop_copies _ _ Hall). cbn. done.
  - unfold DomOutliers.main. cbn [DomOutliers.source]. rewrite Hloop.
    destruct (Nat.ltb_spec 0 (DomOutliers.removed st)); [lia|done].
Qed.

End RoundTrip.

End WithJson.

Lemma outlier_pass_accounts_witness :
  DomOutliers.loop sample_loads sample_dumps sample_float (DomOutliers.mkCounters 0 0 [])
    [ "{}" +:+ newline; newline; "oops" +:+ newline ]
  = (DomOutliers.mkCounters 2 0 [ "{}" +:+ newline; "oops" +:+ newline ], None)
  /\ 2 - 0 = length [ "{}" +:+ newline; "oops" +:+ newline ].
Proof.
  split; [reflexivity|].
  exact (proj2 (proj2 (outlier_pass_accounts sample_loads sample_dumps sample_float
           [ "{}" +:+ newline; newline; "oops" +:+ newline ]
           (DomOutliers.mkCounters 2 0 [ "{}" +:+ newline; "oops" +:+ newline ])
           eq_refl))).
Defined.

Lemma outlier_pass_crash_leaves_temp_witness :
  DomOutliers.loop sample_loads_array sample_dumps sample_float
    (DomOutliers.mkCounters 0 0 []) [ "{}" +:+ newline ]
  = (DomOutliers.mkCounters 1 0 [ "{}" +:+ newline ], None)
  /\ not_a_record sample_loads_array ("[]" +:+ newline) = true
  /\ DomOutliers.main sample_loads_array sample_dumps sample_float
       (DomOutliers.mkFS (Some [ "{}" +:+ newline; "[]" +:+ newline; "{}" +:+ newline ]) None)
     = (DomOutliers.mkFS (Some [ "{}" +:+ newline; "[]" +:+ newline; "{}" +:+ newline ])
          (Some [ "{}" +:+ newline ]),
        DomOutliers.Uncaught AttributeError).
Proof.
  split; [reflexivity|]. split; [reflexivity|].
  exact (outlier_pass_crash_leaves_temp sample_loads_array sample_dumps sample_float
           [ "{}" +:+ newline ] ("[]" +:+ newline) [ "{}" +:+ newline ]
           (DomOutliers.mkCounters 1 0 [ "{}" +:+ newline ]) None eq_refl eq_refl).
Defined.

Lemma outlier_pass_idempotent_witness :
  sample_loads_outlier "" = None
  /\ DomOutliers.main sample_loads_outlier sample_dumps_outlier sample_float
       (DomOutliers.mkFS
          (Some [ "{}" +:+ newline; "outlier" +:+ newline; " oops" +:+ newline ]) None)
     = (DomOutliers.mkFS (Some [ "{}" +:+ newline; "oops" +:+ newline ]) None,
        DomOutliers.Finished)
  /\ DomOutliers.main sample_loads_outlier sample_dumps_outlier sample_float
       (DomOutliers.mkFS (Some [ "{}" +:+ newline; "oops" +:+ newline ]) None)
     = (DomOutliers.mkFS (Some [ "{}" +:+ newline; "oops" +:+ newline ]) None,
        DomOutliers.Finished).
Proof.
  assert (forall text obj,
            sample_loads_outlier text = Some obj ->
            sample_loads_outlier (PyStr.strip (sample_dumps_outlier obj +:+ newline))
            = Some obj) as Hround.
  { intros text obj. unfold sample_loads_outlier.
    destruct (String.eqb text "{}"); [by intros [= <-]|].
    destruct (String.eqb text "outlier"); [by intros [= <-]|done]. }
  split; [reflexivity|]. split; [reflexivity|].
  exact (outlier_pass_idempotent sample_loads_outlier sample_dumps_outlier sample_float
           eq_refl Hround
           (DomOutliers.mkFS
              (Some [ "{}" +:+ newline; "outlier" +:+ newline; " oops" +:+ newline ]) None)
           (DomOutliers.mkFS (Some [ "{}" +:+ newline; "oops" +:+ newline ]) None)
           eq_refl).
Defined.

End OutlierPassFacts.

Module PredictorFacts.
Import Dashboard Encoding DashboardFacts.

Lemma one_hot_inj n i j : i < n -> j < n -> one_hot n i = one_hot n j -> i = j.
Proof.
  intros Hi Hj Heq. apply (one_hot_decode n j i Hj). rewrite <- Heq.
  by apply one_hot_decode.
Qed.

Lemma index_lt_months mo i : index_dict (sorted MONTHS) !! mo = Some i -> i < 12.
Proof.
  intros H. apply index_dict_Some, lookup_lt_Some in H. by rewrite length_sorted in H.
Qed.

Lemma index_lt_agents ag j : index_dict (sorted AGENT_IDS) !! ag = Some j -> j < 24.
Proof.
  intros H. apply index_dict_Some, lookup_lt_Some in H. by rewrite length_sorted in H.
Qed.

(** Two requests with recognised categories that are encoded to the same
    vector have the same month and the same agent: no two categories
    share a one-hot slot. *)
Theorem category_encoding_injective m0 m1 m2 s0 s1 s2 a b c a' b' c' mo ag mo' ag' :
  mo ∈ MONTHS -> ag ∈ AGENT_IDS -> mo' ∈ MONTHS -> ag' ∈ AGENT_IDS ->
  create_feature_vector [m0; m1; m2] [s0; s1; s2] a b c mo ag
  = create_feature_vector [m0; m1; m2] [s0; s1; s2] a' b' c' mo' ag' ->
  mo = mo' /\ ag = ag'.
Proof.
  intros Hmo Hag Hmo' Hag'.
  apply elem_of_sorted, index_dict_elem in Hmo as (i & Hi & Hi').
  apply elem_of_sorted, index_dict_elem in Hag as (j & Hj & Hj').
  apply elem_of_sorted, index_dict_elem in Hmo' as (i' & Hi2 & Hi2').
  apply elem_of_sorted, index_dict_elem in Hag' as (j' & Hj2 & Hj2').
  rewrite (encode_ok _ _ _ _ _ _ _ _ _ _ _ _ _ Hi Hj).
  rewrite (encode_ok _ _ _ _ _ _ _ _ _ _ _ _ _ Hi2 Hj2).
  intros [= _ _ _ Hblocks].
  apply app_inj_1 in Hblocks as [Hm Ha]; [|by rewrite !one_hot_length].
  apply one_hot_inj in Hm; [|by eapply index_lt_months..].
  apply one_hot_inj in Ha; [|by eapply index_lt_agents..].
  subst i' j'. split; congruence.
Qed.

(** With a scaler of three means and deviations and recognised
    categories, a prediction is returned exactly when the model has 39
    weights; with any other number of weights the request raises
    [ValueError]. *)
Theorem prediction_needs_39_weights m0 m1 m2 s0 s1 s2 theta bias a b c mo ag :
  mo ∈ MONTHS -> ag ∈ AGENT_IDS ->
  predict_price_model [m0; m1; m2] [s0; s1; s2] theta bias a b c mo ag
  = if (length theta =? 39)%nat
    then xs ← create_feature_vector [m0; m1; m2] [s0; s1; s2] a b c mo ag;
         Ok (exp (dot xs theta + bias) - 1)%R
    else Raise ValueError.
Proof.
  intros Hmo Hag.
  apply elem_of_sorted, index_dict_elem in Hmo as (i & Hi & _).
  apply elem_of_sorted, index_dict_elem in Hag as (j & Hj & _).
  unfold predict_price_model. rewrite (encode_ok _ _ _ _ _ _ _ _ _ _ _ _ _ Hi Hj). run.
  unfold predict. cbn [app length]. rewrite length_app, !one_hot_length.
  change (S (S (S (12 + 24)))) with 39. rewrite (Nat.eqb_sym 39).
  by destruct (length theta =? 39)%nat.
Qed.


(** A scaler whose mean has neither one nor three entries makes every
    request raise [ValueError], before the month and the agent are
    looked at. *)
Theorem scaler_shape_error mean std a b c mo ag :
  length mean <> 3 -> length mean <> 1 ->
  create_feature_vector mean std a b c mo ag = Raise ValueError.
Proof.
  intros H3 H1. unfold create_feature_vector.
  assert (broadcast Rminus [a; b; c] mean = Raise ValueError) as ->; [|done].
  unfold broadcast. cbn [length].
  destruct (Nat.eqb_spec 3 (length mean)) as [Heq|_]; [by rewrite <- Heq in H3|].
  by destruct mean as [|m0 [|m1 mean]].
Qed.

(** The month map is a one-to-one correspondence between the 12 month
    names and the slots 0..11, and the agent map between the 24 agent
    identifiers and the slots 0..23. *)
Theorem category_maps_one_to_one :
  (forall mo i, index_dict (sorted MONTHS) !! mo = Some i -> mo ∈ MONTHS /\ i < 12)
  /\ (forall mo mo' i, index_dict (sorted MONTHS) !! mo = Some i ->
         index_dict (sorted MONTHS) !! mo' = Some i -> mo = mo')
  /\ (forall i, i < 12 -> exists mo, index_dict (sorted MONTHS) !! mo = Some i)
  /\ (forall ag j, index_dict (sorted AGENT_IDS) !! ag = Some j -> ag ∈ AGENT_IDS /\ j < 24)
  /\ (forall ag ag' j, index_dict (sorted AGENT_IDS) !! ag = Some j ->
         index_dict (sorted AGENT_IDS) !! ag' = Some j -> ag = ag')
  /\ (forall j, j < 24 -> exists ag, index_dict (sorted AGENT_IDS) !! ag = Some j).
Proof.
  assert (forall l k i, index_dict l !! k = Some i -> k ∈ l /\ i < length l) as Hdom.
  { intros l k i H. apply index_dict_Some in H. split.
    - by eapply list_elem_of_lookup_2.
    - by eapply lookup_lt_Some. }
  assert (forall l k k' i, index_dict l !! k = Some i -> index_dict l !! k' = Some i -> k = k')
    as Hinj.
  { intros l k k' i H H'. apply index_dict_Some in H, H'. congruence. }
  split; [|split; [|split; [|split; [|split]]]].
  - intros mo i H. apply Hdom in H as [H1 H2]. rewrite elem_of_sorted in H1.
    by rewrite length_sorted in H2.
  - apply Hinj.
  - intros i Hi. exists (nth i (sorted MONTHS) "").
    do 12 (destruct i as [|i]; [vm_compute; reflexivity|]). lia.
  - intros ag j H. apply Hdom in H as [H1 H2]. rewrite elem_of_sorted in H1.
    by rewrite length_sorted in H2.
  - apply Hinj.
  - intros j Hj. exists (nth j (sorted AGENT_IDS) "").
    do 24 (destruct j as [|j]; [vm_compute; reflexivity|]). lia.
Qed.

Lemma category_encoding_injective_witness :
  "may" ∈ MONTHS /\ "fff5808fd1564d4fafd32ae748479a2c" ∈ AGENT_IDS
  /\ "may" = "may" /\ "fff5808fd1564d4fafd32ae748479a2c" = "fff5808fd1564d4fafd32ae748479a2c".
Proof.
  assert ("may" ∈ MONTHS) as Hmo by (apply (bool_decide_unpack _); vm_compute; exact I).
  assert ("fff5808fd1564d4fafd32ae748479a2c" ∈ AGENT_IDS) as Hag
    by (apply (bool_decide_unpack _); vm_compute; exact I).
  split; [exact Hmo|]. split; [exact Hag|].
  exact (category_encoding_injective 0 0 0 1 1 1 80 12 9 80 12 9
           "may" "fff5808fd1564d4fafd32ae748479a2c" "may" "fff5808fd1564d4fafd32ae748479a2c"
           Hmo Hag Hmo Hag eq_refl).
Defined.

Lemma prediction_needs_39_weights_witness :
  "may" ∈ MONTHS /\ "fff5808fd1564d4fafd32ae748479a2c" ∈ AGENT_IDS
  /\ predict_price_model [0; 0; 0]%R [1; 1; 1]%R [1; 2]%R 0 80 12 9
        "may" "fff5808fd1564d4fafd32ae748479a2c" = Raise ValueError.
Proof.
  assert ("may" ∈ MONTHS) as Hmo by (apply (bool_decide_unpack _); vm_compute; exact I).
  assert ("fff5808fd1564d4fafd32ae748479a2c" ∈ AGENT_IDS) as Hag
    by (apply (bool_decide_unpack _); vm_compute; exact I).
  split; [exact Hmo|]. split; [exact Hag|].
  exact (prediction_needs_39_weights 0 0 0 1 1 1 [1; 2]%R 0 80 12 9
           "may" "fff5808fd1564d4fafd32ae748479a2c" Hmo Hag).
Defined.


Lemma scaler_shape_error_witness :
  length [0; 0]%R <> 3 /\ length [0; 0]%R <> 1
  /\ create_feature_vector [0; 0]%R [1; 1; 1]%R 80 12 9 "may" "nobody" = Raise ValueError.
Proof.
  assert (length [0; 0]%R <> 3) as H3 by (cbn; lia).
  assert (length [0; 0]%R <> 1) as H1 by (cbn; lia).
  split; [exact H3|]. split; [exact H1|].
  exact (scaler_shape_error [0; 0]%R [1; 1; 1]%R 80 12 9 "may" "nobody" H3 H1).
Defined.

End PredictorFacts.

Module PlotFacts.
Import Json Plot PlotVocabulary LineCounts.

Lemma is_none_JNull v : is_none v = true -> v = JNull.
Proof. by destruct v. Qed.

Lemma feat_get_app k fs fs' :
  feat_get k (fs ++ fs') = match feat_get k fs with Some f => Some f | None => feat_get k fs' end.
Proof.
  induction fs as [|[k' f'] fs IH]; [done|]. cbn [app feat_get].
  by destruct (String.eqb k' k).
Qed.

Lemma feat_get_set_eq k f fs : feat_get k (feat_set k f fs) = Some f.
Proof.
  induction fs as [|[k' f'] fs IH]; cbn [feat_set feat_get].
  - by rewrite String.eqb_refl.
  - destruct (String.eqb k' k) eqn:E; cbn [feat_get]; by rewrite E.
Qed.

Lemma feat_get_set_ne k k' f fs :
  String.eqb k k' = false -> feat_get k' (feat_set k f fs) = feat_get k' fs.
Proof.
  intros Hne. induction fs as [|[k0 f0] fs IH]; cbn [feat_set feat_get].
  - by rewrite Hne.
  - destruct (String.eqb k0 k) eqn:E; cbn [feat_get].
    + apply String.eqb_eq in E as ->. by rewrite Hne.
    + by rewrite IH.
Qed.

Section WithLibrary.
Variable float : Type.
Variable json_loads : string -> option json.
Variable float_of_str : string -> option float.
Variable float_of_num : Q -> option float.
Variable float_of_bool : bool -> float.
Variable search_number : string -> option string.
Variable scatter : list float -> list float -> string -> string -> result unit.



Lemma see_item_get fs k' v k :
  feat_get k (see_item float_of_str float_of_num float_of_bool fs (k', v))
  = if String.eqb k' k
    then seen float_of_str float_of_num float_of_bool (feat_get k fs) [v]
    else feat_get k fs.
Proof.
  unfold see_item, seen, converts. cbn [forallb first_sample].
  destruct (String.eqb k' k) eqn:E.
  - apply String.eqb_eq in E as ->.
    destruct (feat_get k fs) as [[n s]|] eqn:Hf.
    + rewrite Hf. cbn [numeric sample].
      destruct (is_none v) eqn:Hv; cbn [negb orb andb].
      * rewrite andb_false_r, Hf, andb_true_r.
        destruct (is_none s) eqn:Hs; [|done]. by rewrite (is_none_JNull s Hs).
      * rewrite !andb_true_r.
        destruct (is_none s) eqn:Hs; rewrite ?feat_get_set_eq, ?Hf; cbn [numeric sample];
          destruct (try_float _ _ _ v); rewrite ?feat_get_set_eq, ?Hf, ?andb_true_r, ?andb_false_r;
          done.
    + rewrite feat_get_app, Hf. cbn [feat_get]. rewrite String.eqb_refl. cbn [sample is_none].
      destruct (is_none v) eqn:Hv; cbn [negb andb orb].
      * rewrite feat_get_app, Hf. cbn [feat_get]. rewrite String.eqb_refl.
        done.
      * rewrite feat_get_set_eq.
        destruct (try_float _ _ _ v); rewrite ?feat_get_set_eq; done.
  - assert (forall f fs0, feat_get k (feat_set k' f fs0) = feat_get k fs0) as Hset.
    { intros f fs0. by apply feat_get_set_ne. }
    assert (feat_get k (fs ++ [(k', mkFeature true JNull)]) = feat_get k fs) as Happ.
    { rewrite feat_get_app. cbn [feat_get]. rewrite E. by destruct (feat_get k fs). }
    destruct (feat_get k' fs) as [f|] eqn:Hf.
    + rewrite Hf. destruct (is_none (sample f) && negb (is_none v));
        destruct (is_none v); rewrite ?Hset; try done;
        destruct (try_float _ _ _ v); rewrite ?Hset; try done;
        rewrite ?feat_get_set_eq, ?Hf, ?Hset; done.
    + rewrite (feat_get_app k' fs), Hf. cbn [feat_get]. rewrite String.eqb_refl.
      cbn [sample is_none andb].
      destruct (is_none v); cbn [negb]; rewrite ?Hset, ?Happ; try done;
        destruct (try_float _ _ _ v); rewrite ?Hset, ?Happ; try done;
        rewrite ?feat_get_set_eq, ?Hset, ?Happ; done.
Qed.

Lemma seen_cons f v vs :
  seen float_of_str float_of_num float_of_bool
    (seen float_of_str float_of_num float_of_bool f [v]) vs
  = seen float_of_str float_of_num float_of_bool f (v :: vs).
Proof.
  destruct f as [[n s]|]; cbn [seen forallb first_sample numeric sample].
  - rewrite andb_true_r, andb_assoc. f_equal. f_equal.
    destruct (is_none s) eqn:Hs; [|by rewrite Hs].
    destruct (is_none v) eqn:Hv; [done|by rewrite Hv].
  - rewrite andb_true_r. destruct (is_none v) eqn:Hv; [done|by rewrite Hv].
Qed.

Lemma seen_nil f : seen float_of_str float_of_num float_of_bool f [] = f.
Proof.
  destruct f as [[n s]|]; [|done]. cbn. rewrite andb_true_r.
  destruct (is_none s) eqn:Hs; [|done]. by rewrite (is_none_JNull s Hs).
Qed.

Lemma fold_see_get items : forall fs k,
  feat_get k (fold_left (see_item float_of_str float_of_num float_of_bool) items fs)
  = seen float_of_str float_of_num float_of_bool (feat_get k fs) (values_under k items).
Proof.
  induction items as [|[k' v] items IH]; intros fs k; cbn [fold_left values_under].
  - by rewrite seen_nil.
  - rewrite IH, see_item_get. destruct (String.eqb k' k); [|done]. by rewrite seen_cons.
Qed.

Lemma infer_loop_fold data : forall fs fs',
  infer_loop float_of_str float_of_num float_of_bool fs data = Ok fs' ->
  fs' = fold_left (see_item float_of_str float_of_num float_of_bool) (items_of data) fs
  /\ forallb is_record data = true.
Proof.
  induction data as [|row data IH]; intros fs fs'; cbn [infer_loop items_of].
  - by intros [= <-].
  - destruct row; try done. intros H. apply IH in H as [-> Hrec].
    by rewrite fold_left_app.
Qed.

Lemma infer_loop_raise data : forall fs,
  forallb is_record data = false ->
  infer_loop float_of_str float_of_num float_of_bool fs data = Raise AttributeError.
Proof.
  induction data as [|row data IH]; intros fs; [done|].
  destruct row; cbn [infer_loop forallb is_record andb]; try done. apply IH.
Qed.

(** When [infer_features] returns, a key has an entry exactly when some
    row holds it; the entry is flagged numeric exactly when [float]
    accepts every value under the key that is not [None], and its sample
    is the first such value. *)
Theorem infer_features_flags data fs k :
  infer_features float_of_str float_of_num float_of_bool data = Ok fs ->
  feat_get k fs
  = match values_under k (items_of data) with
    | [] => None
    | vs => Some (mkFeature (forallb (converts float_of_str float_of_num float_of_bool) vs)
                    (first_sample vs))
    end.
Proof.
  intros H. apply infer_loop_fold in H as [-> _]. rewrite fold_see_get. cbn [feat_get seen].
  by destruct (values_under k (items_of data)).
Qed.

(** [infer_features] returns exactly when every row is a dict; a row of
    any other kind makes it raise [AttributeError]. *)
Lemma infer_features_ok_iff data :
  is_ok (infer_features float_of_str float_of_num float_of_bool data)
  = forallb is_record data.
Proof.
  unfold infer_features.
  destruct (forallb is_record data) eqn:Hrec.
  - destruct (infer_loop _ _ _ [] data) as [fs|e] eqn:H; [done|].
    exfalso. revert H. generalize (@nil (string * feature)).
    induction data as [|row data IH]; intros fs; [done|].
    destruct row; cbn [forallb is_record andb] in Hrec; try done.
    cbn [infer_loop]. by apply IH.
  - by rewrite infer_loop_raise.
Qed.

(** [to_num] and the conversion of [collect_numeric] agree whenever
    [to_num] does not raise. *)
Lemma to_num_collect v r :
  to_num float_of_str float_of_num float_of_bool search_number v = Ok r ->
  collect_value float_of_str float_of_num float_of_bool search_number v = r.
Proof.
  destruct v as [| | |s| |]; cbn; try by intros [= <-].
  destruct (float_of_str (replace_comma s)); [by intros [= <-]|].
  destruct (search_number (replace_comma s)) as [m|]; [|by intros [= <-]].
  destruct (float_of_str m); [by intros [= <-]|done].
Qed.

Lemma to_num_raise v e :
  to_num float_of_str float_of_num float_of_bool search_number v = Raise e -> e = ValueError.
Proof.
  destruct v as [| | |s| |]; cbn; try done.
  destruct (float_of_str (replace_comma s)); [done|].
  destruct (search_number (replace_comma s)) as [m|]; [|done].
  destruct (float_of_str m); [done|]. by intros [= <-].
Qed.

Lemma prepare_loop_lengths data : forall xs ys x_key y_key xs' ys',
  prepare_loop float_of_str float_of_num float_of_bool search_number xs ys x_key y_key data
  = Ok (xs', ys') ->
  length xs = length ys ->
  length xs' = length ys' /\ length xs <= length xs' <= length xs + length data.
Proof.
  induction data as [|row data IH]; intros xs ys x_key y_key xs' ys'; cbn [prepare_loop].
  - intros [= <- <-] Hlen. cbn. lia.
  - intros H Hlen. cbn [length].
    assert (forall xs0 ys0,
              prepare_loop float_of_str float_of_num float_of_bool search_number
                xs0 ys0 x_key y_key data = Ok (xs', ys') ->
              length xs0 = length ys0 -> length xs <= length xs0 <= S (length xs) ->
              length xs' = length ys' /\ length xs <= length xs' <= length xs + S (length data))
      as Hnext.
    { intros xs0 ys0 H0 Hlen0 Hb. destruct (IH _ _ _ _ _ _ H0 Hlen0). lia. }
    destruct (dict_get x_key row) as [vx|]; [|apply (Hnext _ _ H Hlen); lia].
    destruct (dict_get y_key row) as [vy|]; [|apply (Hnext _ _ H Hlen); lia].
    destruct (is_none vx || is_none vy); [apply (Hnext _ _ H Hlen); lia|].
    destruct (to_num float_of_str float_of_num float_of_bool search_number vx) as [[nx|]|e];
      cbn in H; try done;
      destruct (to_num float_of_str float_of_num float_of_bool search_number vy)
        as [[ny|]|e'];
      cbn in H; try done; try (apply (Hnext _ _ H Hlen); lia).
    apply (Hnext _ _ H); rewrite !length_app; cbn; lia.
Qed.

Lemma prepare_loop_raise data : forall xs ys x_key y_key e,
  prepare_loop float_of_str float_of_num float_of_bool search_number xs ys x_key y_key data
  = Raise e ->
  e = ValueError.
Proof.
  induction data as [|row data IH]; intros xs ys x_key y_key e; cbn [prepare_loop]; [done|].
  destruct (dict_get x_key row) as [vx|]; [|apply IH].
  destruct (dict_get y_key row) as [vy|]; [|apply IH].
  destruct (is_none vx || is_none vy); [apply IH|].
  destruct (to_num float_of_str float_of_num float_of_bool search_number vx)
    as [nx|e1] eqn:Hx; cbn [mbind result_bind].
  - destruct (to_num float_of_str float_of_num float_of_bool search_number vy)
      as [ny|e2] eqn:Hy; cbn [mbind result_bind].
    + destruct nx, ny; apply IH.
    + intros [= <-]. by eapply to_num_raise.
  - intros [= <-]. by eapply to_num_raise.
Qed.

(** When [prepare_xy] returns, the two lists have the same length, at
    most the number of rows: the points stay paired. *)
Theorem prepare_xy_paired data x_key y_key xs ys :
  prepare_xy float_of_str float_of_num float_of_bool search_number data x_key y_key
  = Ok (xs, ys) ->
  length xs = length ys /\ length xs <= length data.
Proof.
  intros H. apply prepare_loop_lengths in H; [|done]. cbn in H. lia.
Qed.

Lemma prepare_loop_same_key data : forall xs ys key xs' ys',
  prepare_loop float_of_str float_of_num float_of_bool search_number xs ys key key data
  = Ok (xs', ys') ->
  xs = ys ->
  xs' = ys'
  /\ xs' = collect_loop float_of_str float_of_num float_of_bool search_number xs key data.
Proof.
  induction data as [|row data IH]; intros xs ys key xs' ys';
    cbn [prepare_loop collect_loop].
  - by intros [= <- <-] ->.
  - intros H ->. destruct (dict_get key row) as [v|]; [|by apply (IH _ _ _ _ _ H)].
    rewrite orb_diag in H. destruct (is_none v); [by apply (IH _ _ _ _ _ H)|].
    destruct (to_num float_of_str float_of_num float_of_bool search_number v)
      as [r|e] eqn:Hnum; cbn in H; [|done].
    rewrite (to_num_collect v r Hnum). destruct r as [num|]; by apply (IH _ _ _ _ _ H).
Qed.

(** Asked for the same feature on both axes, [prepare_xy] returns twice
    the list that [collect_numeric] returns for that feature. *)
Theorem prepare_xy_same_key data key xs ys :
  prepare_xy float_of_str float_of_num float_of_bool search_number data key key
  = Ok (xs, ys) ->
  xs = collect_numeric float_of_str float_of_num float_of_bool search_number data key
  /\ ys = xs.
Proof.
  intros H. apply prepare_loop_same_key in H as [-> ->]; done.
Qed.

(** An error that [main] reports under plotting never is the one of the
    guard of [plot_xy]: it comes from plotly, called with two lists of
    the same length that are not empty. *)
Theorem plot_failure_comes_from_plotly file x_key y_key list_only limit e :
  main json_loads float_of_str float_of_num float_of_bool search_number scatter
       file x_key y_key list_only limit
  = PlotFailed e ->
  exists xs ys, scatter xs ys x_key y_key = Raise e /\ xs <> [] /\ length xs = length ys.
Proof.
  unfold main. destruct (read_jsonl json_loads file) as [|data]; [done|].
  destruct (infer_features float_of_str float_of_num float_of_bool _) as [fs|e0]; [|done].
  destruct list_only; [done|].
  destruct (feat_get x_key fs); [|done]. destruct (feat_get y_key fs); [|done].
  destruct (prepare_xy _ _ _ _ _ _ _) as [[xs ys]|e0] eqn:Hxy; [|done].
  apply prepare_xy_paired in Hxy as [Hlen _].
  unfold plot_xy. rewrite <- Hlen.
  destruct xs as [|x xs]; [done|]. cbn [length Nat.eqb orb].
  destruct (scatter (x :: xs) ys x_key y_key) as [u|e1] eqn:Hs; [done|].
  intros [= <-]. by exists (x :: xs), ys.
Qed.

(** [main] ends with an uncaught [AttributeError] exactly when one of
    the rows it keeps is not a dict. *)
Theorem main_crashes_on_non_record f x_key y_key list_only limit :
  main json_loads float_of_str float_of_num float_of_bool search_number scatter
       (Some f) x_key y_key list_only limit
  = Crashed AttributeError
  <-> forallb is_record
        (if (0 <? limit)%Z then firstn (Z.to_nat limit) (read_lines json_loads [] f)
         else read_lines json_loads [] f)
      = false.
Proof.
  unfold main, read_jsonl.
  set (data := if (0 <? limit)%Z then _ else _).
  pose proof (infer_features_ok_iff data) as Hok.
  destruct (infer_features float_of_str float_of_num float_of_bool data) as [fs|e0] eqn:Hinf.
  - cbn in Hok. rewrite <- Hok. split; [|done].
    destruct list_only; [done|].
    destruct (feat_get x_key fs); [|done]. destruct (feat_get y_key fs); [|done].
    destruct (prepare_xy _ _ _ _ _ _ _) as [[xs ys]|e0] eqn:Hxy.
    + destruct (length xs =? 0)%nat; [done|]. by destruct (plot_xy _ _ _ _ _).
    + apply prepare_loop_raise in Hxy as ->. done.
  - cbn in Hok. rewrite <- Hok. split; [done|]. intros _.
    unfold infer_features in Hinf. rewrite infer_loop_raise in Hinf; [|by rewrite <- Hok].
    by injection Hinf as <-.
Qed.

End WithLibrary.

Lemma infer_features_flags_witness :
  infer_features sample_float_of_str sample_float_of_num sample_float_of_bool
    [JObj [("size", JStr "1,5"); ("price", JNum 10)]; JObj [("size", JNull)]]
  = Ok [("size", mkFeature false (JStr "1,5")); ("price", mkFeature true (JNum 10))]
  /\ feat_get "size" [("size", mkFeature false (JStr "1,5")); ("price", mkFeature true (JNum 10))]
     = Some (mkFeature false (JStr "1,5")).
Proof.
  split; [reflexivity|].
  exact (infer_features_flags Q sample_float_of_str sample_float_of_num sample_float_of_bool
           [JObj [("size", JStr "1,5"); ("price", JNum 10)]; JObj [("size", JNull)]]
           _ "size" eq_refl).
Defined.

Lemma prepare_xy_paired_witness :
  prepare_xy sample_float_of_str sample_float_of_num sample_float_of_bool sample_search
    sample_rows "size" "price"
  = Ok ([3 # 2], [10 # 1])
  /\ length [3 # 2] = length [10 # 1].
Proof.
  split; [reflexivity|].
  exact (proj1 (prepare_xy_paired Q sample_float_of_str sample_float_of_num
                  sample_float_of_bool sample_search
                  sample_rows "size" "price" [3 # 2] [10 # 1] eq_refl)).
Defined.

Lemma prepare_xy_same_key_witness :
  prepare_xy sample_float_of_str sample_float_of_num sample_float_of_bool sample_search
    sample_rows "size" "size"
  = Ok ([3 # 2], [3 # 2])
  /\ [3 # 2]
     = collect_numeric sample_float_of_str sample_float_of_num sample_float_of_bool
         sample_search sample_rows "size".
Proof.
  split; [reflexivity|].
  exact (proj1 (prepare_xy_same_key Q sample_float_of_str sample_float_of_num
                  sample_float_of_bool sample_search
                  sample_rows "size" [3 # 2] [3 # 2] eq_refl)).
Defined.

Lemma plot_failure_comes_from_plotly_witness :
  main sample_loads_rows sample_float_of_str sample_float_of_num sample_float_of_bool
    sample_search failing_scatter (Some ["house" +:+ newline]) "size" "price" false 0
  = PlotFailed TypeError
  /\ exists xs ys, failing_scatter xs ys "size" "price" = Raise TypeError
                   /\ xs <> [] /\ length xs = length ys.
Proof.
  split; [reflexivity|].
  exact (plot_failure_comes_from_plotly Q sample_loads_rows sample_float_of_str
           sample_float_of_num sample_float_of_bool sample_search failing_scatter
           (Some ["house" +:+ newline]) "size" "price" false 0 TypeError eq_refl).
Defined.

End PlotFacts.
